(** * imzml_to_nrrd: a shallow embedding of the conversion driver

    The script [imzml_to_nrrd.py] is one function, [main]: it parses its
    arguments, opens an imzML file through the m2aia reader, resolves a list
    of m/z centroids, asks the reader for one ion image per centroid, and
    writes NRRD files and numpy arrays.

    The embedding keeps the shape of the script.  Python's local variables
    and the file system live in an explicit state, exceptions and
    [sys.exit] are results of a small state-and-exception monad, and the
    external libraries (m2aia, SimpleITK) are an oracle record [World]
    whose answers the theorems quantify over. *)

From Stdlib Require Import ZArith List Bool Ascii String Lia.
From Stdlib.Floats Require Import SpecFloat.
From stdpp Require Import base option list gmap strings pretty.

Local Open Scope string_scope.
Local Open Scope list_scope.
Local Open Scope nat_scope.

(* ===================================================================== *)
(** * Floating-point values *)
(* ===================================================================== *)

Module Float.

(** A Python [float] or a numpy scalar is an IEEE-754 value; [spec_float]
    gives sign, mantissa and exponent: [S754_finite s m e] is
    [(-1)^s * m * 2^e]. *)
Definition float := spec_float.

Definition zero : float := S754_zero false.

(** A literal [m * 2^e] read as a binary64 [float]. *)
Definition float64_of (m e : Z) : float := binary_normalize 53 1024 m e false.

(** [np.array(..., dtype=np.float32)] and [sitk.Cast(_, sitkFloat32)] on one
    value: round to nearest even at 24 bits of precision. *)
Definition to_float32 (x : float) : float :=
  match x with
  | S754_finite s m e => binary_round 24 128 s m e
  | _ => x
  end.

(** [num / den] rounded to the nearest integer, ties to even
    ([0 <= num], [0 < den]). *)
Definition round_half_even (num den : Z) : Z :=
  let q := (num / den)%Z in
  let r := (num mod den)%Z in
  match (2 * r ?= den)%Z with
  | Lt => q
  | Gt => (q + 1)%Z
  | Eq => if Z.even q then q else (q + 1)%Z
  end.

(** [|x| * 10^4] correctly rounded to an integer, for [x = m * 2^e]. *)
Definition scaled4 (m : positive) (e : Z) : Z :=
  if (0 <=? e)%Z then (Zpos m * 2 ^ e * 10000)%Z
  else round_half_even (Zpos m * 10000) (2 ^ (- e)).

Definition digit (d : Z) : string :=
  String (ascii_of_nat (48 + Z.to_nat (d mod 10))) EmptyString.

Definition frac4 (f : Z) : string :=
  digit (f / 1000) +:+ digit (f / 100) +:+ digit (f / 10) +:+ digit f.

Definition sign_str (s : bool) : string := if s then "-" else "".

(** The format specification [:.4f] of an f-string: fixed notation with
    four digits after the point, correctly rounded. *)
Definition fmt4 (x : float) : string :=
  match x with
  | S754_nan => "nan"
  | S754_infinity s => sign_str s +:+ "inf"
  | S754_zero s => sign_str s +:+ "0.0000"
  | S754_finite s m e =>
      let q := scaled4 m e in
      sign_str s +:+ pretty (Z.to_N (q / 10000)) +:+ "." +:+ frac4 (q mod 10000)
  end.

End Float.
Export Float.

(* ===================================================================== *)
(** * Paths *)
(* ===================================================================== *)

Module Pathlib.

(** A [pathlib.Path] by its [parts]; [[]] is the current directory and an
    absolute path starts with the part ["/"]. *)
Abbreviation Path := (list string).

Fixpoint split_on (sep : ascii) (s : string) : list string :=
  match s with
  | EmptyString => [""]
  | String c s' =>
      let r := split_on sep s' in
      if Ascii.eqb c sep then "" :: r
      else match r with
           | x :: xs => String c x :: xs
           | [] => [String c ""]
           end
  end.

Definition is_component (c : string) : bool :=
  negb (String.eqb c "") && negb (String.eqb c ".").

(** [Path(s)]: empty and ["."] components vanish. *)
Definition Path_of (s : string) : Path :=
  let comps := List.filter is_component (split_on "/" s) in
  match s with
  | String "/" _ => "/" :: comps
  | _ => comps
  end.

Definition is_absolute (p : Path) : bool :=
  match p with
  | r :: _ => String.eqb r "/"
  | [] => false
  end.

(** [p.name] and [p.parent]; the root has the empty name and is its own
    parent. *)
Definition name (p : Path) : string :=
  match p with
  | ["/"] => ""
  | _ => List.last p ""
  end.

Definition parent (p : Path) : Path :=
  match p with
  | ["/"] => p
  | _ => removelast p
  end.

(** [p / q]: an absolute [q] replaces [p]. *)
Definition joinpath (p q : Path) : Path := if is_absolute q then q else p ++ q.

(** [str.rfind(".")], [None] for -1. *)
Fixpoint rfind_dot (s : string) : option nat :=
  match s with
  | EmptyString => None
  | String c s' =>
      match rfind_dot s' with
      | Some i => Some (S i)
      | None => if Ascii.eqb c "." then Some 0 else None
      end
  end.

(** Where [suffix] and [stem] cut the name: [0 < i < len(name) - 1]. *)
Definition suffix_index (nm : string) : option nat :=
  match rfind_dot nm with
  | Some i => if ((0 <? i) && (i <? String.length nm - 1))%nat then Some i else None
  | None => None
  end.

Definition suffix (p : Path) : string :=
  let nm := name p in
  match suffix_index nm with
  | Some i => substring i (String.length nm - i) nm
  | None => ""
  end.

Definition stem (p : Path) : string :=
  let nm := name p in
  match suffix_index nm with
  | Some i => substring 0 i nm
  | None => nm
  end.

Definition lower_ascii (c : ascii) : ascii :=
  let n := nat_of_ascii c in
  if ((65 <=? n) && (n <=? 90))%nat then ascii_of_nat (n + 32) else c.

Fixpoint lower (s : string) : string :=
  match s with
  | EmptyString => EmptyString
  | String c s' => String (lower_ascii c) (lower s')
  end.

(** The directories [mkdir(parents=True)] has to make: every non-empty
    prefix of the path. *)
Definition ancestors (p : Path) : list Path :=
  map (fun k => take k p) (seq 1 (List.length p)).

End Pathlib.
Export Pathlib.


(* ===================================================================== *)
(** * Images and arrays *)
(* ===================================================================== *)

Module Sitk.

(** A 2D image: [GetSize()] is [(width, height)], and
    [GetArrayFromImage] is the array of shape [(height, width)] whose
    element at row [r], column [c] is [pix r c]. *)
Record Image := { width : nat; height : nat; pix : nat -> nat -> float }.

Definition GetSize (im : Image) : nat * nat := (width im, height im).

(** [sitk.Cast(image, sitk.sitkFloat32)]. *)
Definition Cast_Float32 (im : Image) : Image :=
  {| width := width im; height := height im;
     pix := fun r c => to_float32 (pix im r c) |}.

End Sitk.
Export Sitk.

Module Numpy.

(** A C-contiguous array: its shape and its elements in row-major order. *)
Record Array3 := { shape3 : nat * nat * nat; data3 : list float }.
Record Array2 := { shape2 : nat * nat; data2 : list float }.

(** [np.zeros((h, w, n), dtype=np.float32)] *)
Definition zeros (h w n : nat) : Array3 :=
  {| shape3 := (h, w, n); data3 := replicate (h * w * n) zero |}.

(** [a[r, c, t]] for indices in range; [None] stands for [IndexError]. *)
Definition get3 (a : Array3) (r c t : nat) : option float :=
  let '(h, w, n) := shape3 a in
  if ((r <? h) && (c <? w) && (t <? n))%nat
  then data3 a !! ((r * w + c) * n + t) else None.

Definition get2 (a : Array2) (p t : nat) : option float :=
  let '(m, n) := shape2 a in
  if ((p <? m) && (t <? n))%nat then data2 a !! (p * n + t) else None.

(** Broadcasting of an assigned value along one axis: the lengths agree,
    or the value has length 1 there and is repeated. *)
Definition broadcastable (src dst : nat) : bool :=
  ((src =? dst) || (src =? 1))%nat.

Definition bidx (src k : nat) : nat := if (src =? 1)%nat then 0 else k.

(** [a[:, :, i] = ion_array], with [ion_array = GetArrayFromImage(im)];
    [None] stands for the [ValueError] of shapes that do not broadcast. *)
Definition set_slice (a : Array3) (i : nat) (im : Image) : option Array3 :=
  let '(h, w, n) := shape3 a in
  if broadcastable (height im) h && broadcastable (width im) w then
    Some {| shape3 := shape3 a;
            data3 := imap (fun k v =>
                       if (k mod n =? i)%nat
                       then pix im (bidx (height im) (k / n / w))
                                   (bidx (width im) ((k / n) mod w))
                       else v) (data3 a) |}
  else None.

(** [a.reshape(-1, n)]; [None] stands for [ValueError]. *)
Definition reshape (a : Array3) (n : nat) : option Array2 :=
  let size := List.length (data3 a) in
  if (n =? 0)%nat then None
  else if (size mod n =? 0)%nat
       then Some {| shape2 := (size / n, n); data2 := data3 a |}
       else None.

Definition nbytes3 (a : Array3) : nat := 4 * List.length (data3 a).
Definition nbytes2 (a : Array2) : nat := 4 * List.length (data2 a).

End Numpy.
Export Numpy.

(* ===================================================================== *)
(** * The environment of a run *)
(* ===================================================================== *)

(** Command-line arguments, as [argparse] hands them to [main]. *)
Record Args := {
  imzml_file : string;
  centroids : option (list float);
  output_dir : option string;
  tolerance : float;
  save_nrrd : bool;
  save_npy_spatial : bool;
  save_npy_list : bool;
  npy_output : option string
}.

(** The m2aia reader of an opened file.  A library call either returns or
    raises an [Exception] with a message ([inl msg]).  [GetImage] may
    answer differently on each call: it is indexed by the position of the
    call in the extraction loop. *)
Record Reader := {
  GetSpectrumType : string;
  GetXAxis : string + list float;
  GetImage : nat -> float -> float -> string + Image
}.

(** What the libraries answer: opening a file, and whether writing the
    image of loop position [i] to a path fails. *)
Record World := {
  ImzMLReader : Path -> string + Reader;
  WriteImage : nat -> Path -> option string
}.

(** What a file on disk holds. *)
Inductive FileData :=
| Existing
| NrrdFile (im : Image) (mz_value tolerance_ppm : float) (source_file : string)
| NpyFile3 (a : option Array3)
| NpyFile2 (a : Array2)
| NpzFile (mz_values : list float) (tolerance_ppm : float)
          (image_width image_height : nat) (source_file : string).

Record FS := { files : gmap Path FileData; dirs : gset Path }.

(** Lines printed to the two streams. *)
Inductive Msg :=
| ErrInputMissing (p : Path)
| WarnExtension
| LoadingFile (p : Path)
| ErrLoading (e : string)
| LoadedFile
| SpectrumTypeIs (s : string)
| UsingProvided (n : nat)
| UsingFileCentroids (n : nat)
| ErrExtractingCentroids (e : string)
| PleaseProvideCentroids
| ErrNotCentroid (s : string)
| ErrNoCentroids
| ToleranceIs (t : float)
| ProcessingPeaks (n : nat)
| Allocated (shape : nat * nat * nat)
| Processed (k n : nat) (mz : string)
| WarnFailed (mz : string) (e : string)
| SpatialSaved (p : Path)
| ShapeIs3 (shape : nat * nat * nat)
| ShapeIs2 (shape : nat * nat)
| SizeBytes (b : nat)
| ListSaved (p : Path)
| MetadataSaved (p : Path)
| NrrdSavedTo (p : Path)
| ConversionComplete.

(** Everything a run does that can be observed, in order. *)
Inductive Event :=
| Stdout (m : Msg)
| Stderr (m : Msg)
| Mkdir (p : Path)
| OpenReader (p : Path)
| AskSpectrumType
| AskXAxis
| SetTolerance (t : float)
| AskImage (mz tol : float)
| ImageWrite (p : Path)
| NpSave (p : Path)
| NpSavez (p : Path).

(** The file system, the log, and the local variables of [main] that the
    extraction loop mutates. *)
Record State := {
  fs : FS;
  log : list Event;
  data_matrix_3d : option Array3;
  data_matrix_2d : option Array2;
  image_shape : option (nat * nat)
}.

Definition initial (f : FS) : State :=
  {| fs := f; log := []; data_matrix_3d := None; data_matrix_2d := None;
     image_shape := None |}.

(* ===================================================================== *)
(** * Exceptions and state *)
(* ===================================================================== *)

Module Py.

(** [SystemExit] is not an [Exception]; everything else raised here is. *)
Inductive Exc :=
| SystemExit (code : Z)
| Exception (cls msg : string).

Inductive Result (A : Type) :=
| Return (a : A)
| Raise (e : Exc).
Arguments Return {A} a.
Arguments Raise {A} e.

Definition M (A : Type) : Type := State -> Result A * State.

Definition ret {A} (a : A) : M A := fun s => (Return a, s).
Definition raise {A} (e : Exc) : M A := fun s => (Raise e, s).

Definition bind {A B} (m : M A) (k : A -> M B) : M B :=
  fun s => match m s with
           | (Return a, s') => k a s'
           | (Raise e, s') => (Raise e, s')
           end.

(** [try: m  except Exception as e: h(str(e))] *)
Definition try_except {A} (m : M A) (h : string -> M A) : M A :=
  fun s => match m s with
           | (Raise (Exception _ msg), s') => h msg s'
           | r => r
           end.

Definition get : M State := fun s => (Return s, s).
Definition modify (f : State -> State) : M unit := fun s => (Return tt, f s).

Definition when (b : bool) (m : M unit) : M unit := if b then m else ret tt.

(** [sys.exit(code)] *)
Definition sys_exit {A} (code : Z) : M A := raise (SystemExit code).

(** A library answer: return the value or raise the [Exception]. *)
Definition lift {A} (r : string + A) : M A :=
  match r with
  | inl msg => raise (Exception "Exception" msg)
  | inr a => ret a
  end.

(** The status the process ends with: 0 when [main] returns, the code of a
    [sys.exit], and 1 when an exception reaches the top level. *)
Definition exit_status {A} (r : Result A) : Z :=
  match r with
  | Return _ => 0
  | Raise (SystemExit c) => c
  | Raise (Exception _ _) => 1
  end.

End Py.
Export Py.

Notation "x <- m ;; k" := (bind m (fun x => k))
  (at level 100, m at next level, right associativity).
Notation "m ;;; k" := (bind m (fun _ => k))
  (at level 100, right associativity).

(* ===================================================================== *)
(** * Primitive operations *)
(* ===================================================================== *)

Definition set_fs (f : FS) (s : State) : State :=
  {| fs := f; log := log s; data_matrix_3d := data_matrix_3d s;
     data_matrix_2d := data_matrix_2d s; image_shape := image_shape s |}.

Definition set_log (l : list Event) (s : State) : State :=
  {| fs := fs s; log := l; data_matrix_3d := data_matrix_3d s;
     data_matrix_2d := data_matrix_2d s; image_shape := image_shape s |}.

Definition set_data_matrix_3d (a : option Array3) (s : State) : State :=
  {| fs := fs s; log := log s; data_matrix_3d := a;
     data_matrix_2d := data_matrix_2d s; image_shape := image_shape s |}.

Definition set_data_matrix_2d (a : option Array2) (s : State) : State :=
  {| fs := fs s; log := log s; data_matrix_3d := data_matrix_3d s;
     data_matrix_2d := a; image_shape := image_shape s |}.

Definition set_image_shape (sh : option (nat * nat)) (s : State) : State :=
  {| fs := fs s; log := log s; data_matrix_3d := data_matrix_3d s;
     data_matrix_2d := data_matrix_2d s; image_shape := sh |}.

Definition emit (e : Event) : M unit :=
  modify (fun s => set_log (log s ++ [e]) s).

(** [print(...)] and [print(..., file=sys.stderr)] *)
Definition print (m : Msg) : M unit := emit (Stdout m).
Definition print_err (m : Msg) : M unit := emit (Stderr m).

Definition is_file (f : FS) (p : Path) : bool :=
  bool_decide (is_Some (files f !! p)).

(** [p.is_dir()]; the current directory [[]] always is one. *)
Definition is_dir (f : FS) (p : Path) : bool :=
  bool_decide (p ∈ dirs f) || bool_decide (p = []).

(** [p.exists()] *)
Definition path_exists (f : FS) (p : Path) : bool :=
  is_file f p || is_dir f p.

(** [p.mkdir(parents=True, exist_ok=True)]: a file in the way raises,
    otherwise the directory and its missing ancestors are made. *)
Definition mkdir (p : Path) : M unit :=
  emit (Mkdir p) ;;;
  s <- get ;;
  if existsb (is_file (fs s)) (ancestors p)
  then raise (Exception "FileExistsError" "File exists")
  else modify (set_fs {| files := files (fs s);
                         dirs := dirs (fs s) ∪ list_to_set (ancestors p) |}).

Definition write_file (p : Path) (d : FileData) : M unit :=
  modify (fun s => set_fs {| files := <[p := d]> (files (fs s));
                             dirs := dirs (fs s) |} s).

(** [None.attr]: an [AttributeError]. *)
Definition attr {A} (o : option A) (a : string) : M A :=
  match o with
  | Some x => ret x
  | None => raise (Exception "AttributeError"
                     ("'NoneType' object has no attribute '" +:+ a +:+ "'"))
  end.

(** Truth value of an optional string or list argument. *)
Definition truthy_str (o : option string) : option string :=
  match o with
  | Some (String _ _ as s) => Some s
  | _ => None
  end.

(** [needle in s] *)
Fixpoint contains (needle s : string) : bool :=
  String.prefix needle s ||
  match s with
  | EmptyString => false
  | String _ s' => contains needle s'
  end.

(** [for i, x in enumerate(l): body], counting from [i]. *)
Fixpoint for_enumerate (body : nat -> float -> M unit) (i : nat)
    (l : list float) : M unit :=
  match l with
  | [] => ret tt
  | x :: l' => body i x ;;; for_enumerate body (S i) l'
  end.

(* ===================================================================== *)
(** * The script *)
(* ===================================================================== *)

Section Main.

Variable args : Args.
Variable world : World.

(** Lines 100-107: validate the input file. *)
Definition validate_input : M Path :=
  let imzml_path := Path_of (imzml_file args) in
  s <- get ;;
  when (negb (path_exists (fs s) imzml_path))
    (print_err (ErrInputMissing imzml_path) ;;; sys_exit 1) ;;;
  when (negb (String.eqb (lower (suffix imzml_path)) ".imzml"))
    (print_err WarnExtension) ;;;
  ret imzml_path.

(** Lines 109-114: set the output directory. *)
Definition set_output_dir (imzml_path : Path) : M Path :=
  match truthy_str (output_dir args) with
  | Some d =>
      let output_dir := Path_of d in
      mkdir output_dir ;;;
      ret output_dir
  | None => ret (parent imzml_path)
  end.

(** Lines 116-130: load the file and ask for its spectrum type. *)
Definition load (imzml_path : Path) : M (Reader * string) :=
  print (LoadingFile imzml_path) ;;;
  img <- try_except
           (emit (OpenReader imzml_path) ;;; lift (ImzMLReader world imzml_path))
           (fun e => print_err (ErrLoading e) ;;; sys_exit 1) ;;
  print LoadedFile ;;;
  emit AskSpectrumType ;;;
  let spectrum_type := GetSpectrumType img in
  print (SpectrumTypeIs spectrum_type) ;;;
  ret (img, spectrum_type).

(** Lines 132-154: determine which centroids to use. *)
Definition determine_centroids (img : Reader) (spectrum_type : string)
    : M (list float) :=
  cs <- match centroids args with
        | Some (c :: l) =>
            let centroids := map to_float32 (c :: l) in
            print (UsingProvided (List.length centroids)) ;;;
            ret centroids
        | _ =>
            if contains "Centroid" spectrum_type then
              try_except
                (emit AskXAxis ;;;
                 centroids <- lift (GetXAxis img) ;;
                 print (UsingFileCentroids (List.length centroids)) ;;;
                 ret centroids)
                (fun e =>
                   print_err (ErrExtractingCentroids e) ;;;
                   print_err PleaseProvideCentroids ;;;
                   sys_exit 1)
            else
              print_err (ErrNotCentroid spectrum_type) ;;;
              print_err PleaseProvideCentroids ;;;
              sys_exit 1
        end ;;
  when (List.length cs =? 0)%nat (print_err ErrNoCentroids ;;; sys_exit 1) ;;;
  ret cs.

Definition wants_npy : bool := save_npy_spatial args || save_npy_list args.

Definition nrrd_path (imzml_path output_dir : Path) (mz : float) : Path :=
  let output_filename := stem imzml_path +:+ "_mz_" +:+ fmt4 mz +:+ ".nrrd" in
  joinpath output_dir (Path_of output_filename).

(** Lines 169-202: the [try] block of one loop iteration. *)
Definition try_centroid (imzml_path output_dir : Path) (img : Reader)
    (n i : nat) (mz : float) : M unit :=
  emit (AskImage mz (tolerance args)) ;;;
  itk_image <- lift (GetImage img i mz (tolerance args)) ;;
  let sitk_image := Cast_Float32 itk_image in
  s <- get ;;
  when (wants_npy && bool_decide (image_shape s = None))
    (let shape := GetSize sitk_image in
     modify (set_image_shape (Some shape)) ;;;
     let matrix := zeros (snd shape) (fst shape) n in
     modify (set_data_matrix_3d (Some matrix)) ;;;
     print (Allocated (shape3 matrix))) ;;;
  s <- get ;;
  match data_matrix_3d s with
  | Some a =>
      match set_slice a i sitk_image with
      | Some a' => modify (set_data_matrix_3d (Some a'))
      | None => raise (Exception "ValueError" "could not broadcast input array")
      end
  | None => ret tt
  end ;;;
  when (save_nrrd args)
    (let output_path := nrrd_path imzml_path output_dir mz in
     emit (ImageWrite output_path) ;;;
     match WriteImage world i output_path with
     | Some err => raise (Exception "RuntimeError" err)
     | None =>
         write_file output_path
           (NrrdFile sitk_image mz (tolerance args) (name imzml_path))
     end) ;;;
  when (((i + 1) mod 10 =? 0) || (i + 1 =? n))%nat
    (print (Processed (i + 1) n (fmt4 mz))).

(** Lines 168-205: one iteration, with its [except Exception]. *)
Definition process_centroid (imzml_path output_dir : Path) (img : Reader)
    (n i : nat) (mz : float) : M unit :=
  try_except (try_centroid imzml_path output_dir img n i mz)
    (fun e => print_err (WarnFailed (fmt4 mz) e)).

(** Lines 207-241: save the numpy arrays and the metadata. *)
Definition save_arrays (imzml_path output_dir : Path) (cs : list float)
    : M unit :=
  let npy_base :=
    match truthy_str (npy_output args) with
    | Some o => joinpath output_dir (Path_of o)
    | None => joinpath output_dir (Path_of (stem imzml_path +:+ "_data"))
    end in
  when (save_npy_spatial args)
    (let output_spatial :=
       joinpath (parent npy_base) (Path_of (stem npy_base +:+ "_spatial.npy")) in
     s <- get ;;
     emit (NpSave output_spatial) ;;;
     write_file output_spatial (NpyFile3 (data_matrix_3d s)) ;;;
     print (SpatialSaved output_spatial) ;;;
     a <- attr (data_matrix_3d s) "shape" ;;
     print (ShapeIs3 (shape3 a)) ;;;
     print (SizeBytes (nbytes3 a))) ;;;
  when (save_npy_list args)
    (s <- get ;;
     a <- attr (data_matrix_3d s) "reshape" ;;
     m2 <- match reshape a (List.length cs) with
           | Some m2 => ret m2
           | None => raise (Exception "ValueError" "cannot reshape array")
           end ;;
     modify (set_data_matrix_2d (Some m2)) ;;;
     let output_list :=
       joinpath (parent npy_base) (Path_of (stem npy_base +:+ "_list.npy")) in
     emit (NpSave output_list) ;;;
     write_file output_list (NpyFile2 m2) ;;;
     print (ListSaved output_list) ;;;
     print (ShapeIs2 (shape2 m2)) ;;;
     print (SizeBytes (nbytes2 m2))) ;;;
  let metadata_file :=
    joinpath (parent npy_base) (Path_of (stem npy_base +:+ "_metadata.npz")) in
  s <- get ;;
  emit (NpSavez metadata_file) ;;;
  write_file metadata_file
    (NpzFile cs (tolerance args)
       (match image_shape s with Some sh => fst sh | None => 0 end)
       (match image_shape s with Some sh => snd sh | None => 0 end)
       (name imzml_path)) ;;;
  print (MetadataSaved metadata_file).

(** Lines 156-205: set the tolerance and run the extraction loop. *)
Definition extract (imzml_path output_dir : Path) (img : Reader)
    (cs : list float) : M unit :=
  emit (SetTolerance (tolerance args)) ;;;
  print (ToleranceIs (tolerance args)) ;;;
  print (ProcessingPeaks (List.length cs)) ;;;
  for_enumerate (process_centroid imzml_path output_dir img (List.length cs)) 0 cs.

(** Lines 100-154: everything up to the resolved list of centroids. *)
Definition resolve : M (Path * Path * Reader * list float) :=
  imzml_path <- validate_input ;;
  output_dir <- set_output_dir imzml_path ;;
  r <- load imzml_path ;;
  cs <- determine_centroids (fst r) (snd r) ;;
  ret (imzml_path, output_dir, fst r, cs).

(** Lines 156-246: the loop, the arrays and the closing messages. *)
Definition convert (x : Path * Path * Reader * list float) : M unit :=
  let '(imzml_path, output_dir, img, cs) := x in
  extract imzml_path output_dir img cs ;;;
  when wants_npy (save_arrays imzml_path output_dir cs) ;;;
  when (save_nrrd args) (print (NrrdSavedTo output_dir)) ;;;
  print ConversionComplete.

Definition main : M unit :=
  x <- resolve ;;
  convert x.

End Main.

(** A run from a file system: the result of [main] and the final state. *)
Definition run (args : Args) (world : World) (f : FS) : Result unit * State :=
  main args world (initial f).

(* ===================================================================== *)
(** * Vocabulary of the statements *)
(* ===================================================================== *)

(** Two states with the same local variables. *)
Definition same_locals (s s' : State) : Prop :=
  data_matrix_3d s' = data_matrix_3d s /\
  data_matrix_2d s' = data_matrix_2d s /\
  image_shape s' = image_shape s.


Definition is_progress (ev : Event) : bool :=
  match ev with
  | Stdout (Processed _ _ _) => true
  | _ => false
  end.

Definition is_warning (ev : Event) : bool :=
  match ev with
  | Stderr (WarnFailed _ _) => true
  | _ => false
  end.

Definition is_image_write (ev : Event) : bool :=
  match ev with
  | ImageWrite _ => true
  | _ => false
  end.

(** Whether an event leaves the source's own centroid list alone. *)
Definition not_xaxis (ev : Event) : bool :=
  match ev with
  | AskXAxis => false
  | _ => true
  end.

Section IterationSpec.

Variable args : Args.
Variable world : World.
Variables imzml_path output_dir : Path.
Variable img : Reader.
Variable n : nat.

Local Abbreviation tol := (tolerance args).

(** The local variables after an iteration, from those before it. *)
Definition next_shape (s : State) (i : nat) (mz : float) : option (nat * nat) :=
  match GetImage img i mz tol with
  | inl _ => image_shape s
  | inr im =>
      if wants_npy args && bool_decide (image_shape s = None)
      then Some (width im, height im) else image_shape s
  end.

Definition next_matrix (s : State) (i : nat) (mz : float) : option Array3 :=
  match GetImage img i mz tol with
  | inl _ => data_matrix_3d s
  | inr im =>
      let cur := if wants_npy args && bool_decide (image_shape s = None)
                 then Some (zeros (height im) (width im) n)
                 else data_matrix_3d s in
      match cur with
      | Some a =>
          match set_slice a i (Cast_Float32 im) with
          | Some a' => Some a'
          | None => cur
          end
      | None => None
      end
  end.

(** The accumulator a new image is assigned to: allocated for the first
    image, otherwise the one at hand. *)
Definition cur_matrix (s : State) (im : Image) : option Array3 :=
  if wants_npy args && bool_decide (image_shape s = None)
  then Some (zeros (height im) (width im) n)
  else data_matrix_3d s.

(** Whether line 185 succeeds for the image. *)
Definition assign_ok (s : State) (i : nat) (im : Image) : bool :=
  match cur_matrix s im with
  | Some a =>
      match set_slice a i (Cast_Float32 im) with
      | Some _ => true
      | None => false
      end
  | None => true
  end.

(** Whether the iteration gets to line 199. *)
Definition reaches_write (s : State) (i : nat) (mz : float) : bool :=
  match GetImage img i mz tol with
  | inr im => save_nrrd args && assign_ok s i im
  | inl _ => false
  end.

(** The files after an iteration. *)
Definition next_files (s : State) (i : nat) (mz : float)
    : gmap Path FileData :=
  let p := nrrd_path imzml_path output_dir mz in
  match GetImage img i mz tol with
  | inr im =>
      if reaches_write s i mz then
        match WriteImage world i p with
        | None => <[p := NrrdFile (Cast_Float32 im) mz tol (name imzml_path)]>
                    (files (fs s))
        | Some _ => files (fs s)
        end
      else files (fs s)
  | inl _ => files (fs s)
  end.

End IterationSpec.

Section LoopSpec.

Variable args : Args.
Variable world : World.
Variables imzml_path output_dir : Path.
Variable img : Reader.
Variable cs : list float.

Local Abbreviation tol := (tolerance args).
Local Abbreviation n := (length cs).

(** The state in which the loop starts: lines 157-160 only print. *)
Definition announce (s : State) : State :=
  set_log (log s ++ [SetTolerance tol; Stdout (ToleranceIs tol);
                     Stdout (ProcessingPeaks n)]) s.

(** What slice [j] of an accumulator of height [H] and width [W] holds once
    item [j] is done: the item's image cast to float32 (broadcast if one of
    its axes has length 1), or zeros when the extraction or the assignment
    failed. *)
Definition slice_value (H W j r c : nat) : float :=
  match cs !! j with
  | Some mz =>
      match GetImage img j mz tol with
      | inr im =>
          if broadcastable (height im) H && broadcastable (width im) W
          then to_float32 (pix im (bidx (height im) r) (bidx (width im) c))
          else zero
      | inl _ => zero
      end
  | None => zero
  end.

(** Item [j] is the first whose image came back, with size [(W, H)]. *)
Definition first_image (W H j : nat) : Prop :=
  (exists mz im, cs !! j = Some mz /\ GetImage img j mz tol = inr im /\
                 W = width im /\ H = height im) /\
  forall j' mz', j' < j -> cs !! j' = Some mz' ->
    exists e, GetImage img j' mz' tol = inl e.

(** The loop invariant after [k] items: either no image has come back and
    nothing is allocated, or the accumulator has the size of the first
    image and every slice holds its [slice_value]. *)
Definition acc_inv (k : nat) (s : State) : Prop :=
  match data_matrix_3d s, image_shape s with
  | None, None =>
      wants_npy args = true ->
      forall j mz, j < k -> cs !! j = Some mz ->
        exists e, GetImage img j mz tol = inl e
  | Some a, Some (W, H) =>
      shape3 a = (H, W, n) /\ length (data3 a) = H * W * n /\
      (exists j, j < k /\ first_image W H j) /\
      forall j r c, j < n -> r < H -> c < W ->
        data3 a !! ((r * W + c) * n + j) =
          Some (if j <? k then slice_value H W j r c else zero)
  | _, _ => False
  end.



End LoopSpec.

Section RunSpec.

Variable args : Args.

(** What runs after the loop (lines 207-246). *)
Definition finish (imzml_path output_dir : Path) (cs : list float) : M unit :=
  when (wants_npy args) (save_arrays args imzml_path output_dir cs) ;;;
  when (save_nrrd args) (print (NrrdSavedTo output_dir)) ;;;
  print ConversionComplete.

(** The directory the outputs go to (lines 110-114). *)
Definition resolved_output_dir (imzml_path : Path) : Path :=
  match truthy_str (output_dir args) with
  | Some d => Path_of d
  | None => parent imzml_path
  end.

(** Nothing stands in the way of [mkdir]. *)
Definition mkdir_possible (f : FS) : bool :=
  match truthy_str (output_dir args) with
  | Some d => negb (existsb (is_file f) (ancestors (Path_of d)))
  | None => true
  end.

End RunSpec.

(* ===================================================================== *)
(** * Sample inputs *)
(* ===================================================================== *)

Module Sample.

(** The m/z value [k]. *)
Definition mz (k : Z) : float := float64_of k 0.

(** 150.25, as [argparse] reads it. *)
Definition mz_150_25 : float := float64_of 601 (-2).

(** A [w] by [h] image whose pixels count up from [v]. *)
Definition image (w h : nat) (v : Z) : Image :=
  {| width := w; height := h;
     pix := fun r c => float64_of (v + Z.of_nat (r * w + c)) 0 |}.

(** A centroid file with the centroids 100 and 200, whose [k]-th call of
    [GetImage] answers [answers k]. *)
Definition reader (answers : nat -> string + Image) : Reader :=
  {| GetSpectrumType := "Centroid";
     GetXAxis := inr [mz 100; mz 200];
     GetImage := fun k _ _ => answers k |}.

Definition world (answers : nat -> string + Image) : World :=
  {| ImzMLReader := fun _ => inr (reader answers);
     WriteImage := fun _ _ => None |}.

(** A reader that cannot open the file. *)
Definition broken_world : World :=
  {| ImzMLReader := fun _ => inl "not an imzML file";
     WriteImage := fun _ _ => None |}.

(** A disk that holds [data/sample.imzML] and nothing else. *)
Definition disk : FS :=
  {| files := {[ ["data"; "sample.imzML"] := Existing ]};
     dirs := {[ ["data"] ]} |}.

Definition args0 : Args :=
  {| imzml_file := "data/sample.imzML"; centroids := None;
     output_dir := None; tolerance := mz 75;
     save_nrrd := false; save_npy_spatial := false; save_npy_list := false;
     npy_output := None |}.

Definition with_flags (nrrd spatial lst : bool) (a : Args) : Args :=
  {| imzml_file := imzml_file a; centroids := centroids a;
     output_dir := output_dir a; tolerance := tolerance a;
     save_nrrd := nrrd; save_npy_spatial := spatial; save_npy_list := lst;
     npy_output := npy_output a |}.

Definition with_centroids (l : list float) (a : Args) : Args :=
  {| imzml_file := imzml_file a; centroids := Some l;
     output_dir := output_dir a; tolerance := tolerance a;
     save_nrrd := save_nrrd a; save_npy_spatial := save_npy_spatial a;
     save_npy_list := save_npy_list a; npy_output := npy_output a |}.

Definition with_output_dir (d : string) (a : Args) : Args :=
  {| imzml_file := imzml_file a; centroids := centroids a;
     output_dir := Some d; tolerance := tolerance a;
     save_nrrd := save_nrrd a; save_npy_spatial := save_npy_spatial a;
     save_npy_list := save_npy_list a; npy_output := npy_output a |}.

Definition with_input (f : string) (a : Args) : Args :=
  {| imzml_file := f; centroids := centroids a;
     output_dir := output_dir a; tolerance := tolerance a;
     save_nrrd := save_nrrd a; save_npy_spatial := save_npy_spatial a;
     save_npy_list := save_npy_list a; npy_output := npy_output a |}.

(** Every extraction fails. *)
Definition all_fail : nat -> string + Image := fun _ => inl "no image".

(** The first extraction fails, the others give 2 by 2 images. *)
Definition first_fails : nat -> string + Image :=
  fun k => if k =? 0 then inl "no image" else inr (image 2 2 (10 * Z.of_nat k)).

(** Every extraction gives a 2 by 2 image. *)
Definition all_ok : nat -> string + Image :=
  fun k => inr (image 2 2 (10 * Z.of_nat (S k))).

(** A 2 by 2 image first, then images of one row. *)
Definition then_one_row : nat -> string + Image :=
  fun k => if k =? 0 then inr (image 2 2 10) else inr (image 2 1 20).

(** A 2 by 2 image first, then 3 by 3 images. *)
Definition then_larger : nat -> string + Image :=
  fun k => if k =? 0 then inr (image 2 2 10) else inr (image 3 3 20).

End Sample.

(** The events of steps 1-5 on the sample file, read with its own
    centroids. *)
Definition sample_prelude : list Event :=
  [Stdout (LoadingFile ["data"; "sample.imzML"]);
   OpenReader ["data"; "sample.imzML"];
   Stdout LoadedFile; AskSpectrumType; Stdout (SpectrumTypeIs "Centroid");
   AskXAxis; Stdout (UsingFileCentroids 2);
   SetTolerance (Sample.mz 75); Stdout (ToleranceIs (Sample.mz 75));
   Stdout (ProcessingPeaks 2)].


(* ===================================================================== *)
(** * Vocabulary of the further properties *)
(* ===================================================================== *)

(** ** Phases of a run *)

(** The three stretches of [main]: lines 100-154, lines 156-205 and lines
    207-246. *)
Inductive Phase := Resolving | Extracting | Finishing.

(** The stretch of [main] an event is emitted in. *)
Definition phase_of (ev : Event) : Phase :=
  match ev with
  | SetTolerance _ | AskImage _ _ | ImageWrite _ => Extracting
  | Stdout (ToleranceIs _) | Stdout (ProcessingPeaks _)
  | Stdout (Allocated _) | Stdout (Processed _ _ _)
  | Stderr (WarnFailed _ _) => Extracting
  | NpSave _ | NpSavez _ => Finishing
  | Stdout (SpatialSaved _) | Stdout (ShapeIs3 _) | Stdout (ShapeIs2 _)
  | Stdout (SizeBytes _) | Stdout (ListSaved _) | Stdout (MetadataSaved _)
  | Stdout (NrrdSavedTo _) | Stdout ConversionComplete => Finishing
  | _ => Resolving
  end.

Definition in_phase (ph : Phase) (ev : Event) : bool :=
  match ph, phase_of ev with
  | Resolving, Resolving | Extracting, Extracting | Finishing, Finishing => true
  | _, _ => false
  end.

(** The calls that configure and query the reader in the loop. *)
Definition is_extraction (ev : Event) : bool :=
  match ev with
  | SetTolerance _ | AskImage _ _ => true
  | _ => false
  end.

Definition is_extension_warning (ev : Event) : bool :=
  match ev with
  | Stderr WarnExtension => true
  | _ => false
  end.

(** Whether [args.centroids] counts as given (line 133). *)
Definition explicit_centroids (args : Args) : option (list float) :=
  match centroids args with
  | Some (c :: l) => Some (c :: l)
  | _ => None
  end.

(** Lines 210-213 and 232: the base of the array file names and the
    metadata file. *)
Definition npy_base (args : Args) (imzml_path output_dir : Path) : Path :=
  match truthy_str (npy_output args) with
  | Some o => joinpath output_dir (Path_of o)
  | None => joinpath output_dir (Path_of (stem imzml_path +:+ "_data"))
  end.

Definition metadata_file (args : Args) (imzml_path output_dir : Path) : Path :=
  let base := npy_base args imzml_path output_dir in
  joinpath (parent base) (Path_of (stem base +:+ "_metadata.npz")).

(** The directories a run makes (lines 102-104 and 110-112): those of
    [--output-dir], once the input is found and unless a file is in the
    way. *)
Definition made_dirs (args : Args) (f : FS) : gset Path :=
  match truthy_str (output_dir args) with
  | Some d =>
      if path_exists f (Path_of (imzml_file args)) &&
         negb (existsb (is_file f) (ancestors (Path_of d)))
      then list_to_set (ancestors (Path_of d))
      else ∅
  | None => ∅
  end.

(** ** More sample inputs *)

(** A source of the given spectrum type and centroid axis, all of whose
    images come back 2 by 2. *)
Definition sample_source (spectrum_type : string)
    (axis : string + list float) : World :=
  {| ImzMLReader := fun _ =>
       inr {| GetSpectrumType := spectrum_type;
              GetXAxis := axis;
              GetImage := fun k _ _ => Sample.all_ok k |};
     WriteImage := fun _ _ => None |}.

(** A world in which every image comes back and every write fails. *)
Definition read_only_world : World :=
  {| ImzMLReader := fun _ => inr (Sample.reader Sample.all_ok);
     WriteImage := fun _ _ => Some "cannot write" |}.

(** The last [k] events of a log. *)
Definition last_events (k : nat) (l : list Event) : list Event :=
  rev (take k (rev l)).

(** Lines 216, 225 and 232: the array file with the given ending. *)
Definition npy_file (args : Args) (imzml_path output_dir : Path)
    (ending : string) : Path :=
  let base := npy_base args imzml_path output_dir in
  joinpath (parent base) (Path_of (stem base +:+ ending)).

(** An ending of a file name: no slash in it, and at least two
    characters. *)
Definition good_ending (t : string) : bool :=
  forallb (fun c => negb (Ascii.eqb c "/")) (list_ascii_of_string t) &&
  (2 <=? String.length t).

(** Whether a string starts with a slash: [Path] then gives an absolute
    path. *)
Definition starts_with_slash (s : string) : bool :=
  match s with
  | String c _ => Ascii.eqb c "/"
  | EmptyString => false
  end.

(* ===================================================================== *)
(** * Reasoning about the monad *)
(* ===================================================================== *)

Create HintDb py.
#[global] Hint Unfold bind ret raise when emit print print_err modify get
  sys_exit lift try_except attr write_file : py.

Arguments fmt4 : simpl never.
Arguments Path_of : simpl never.
Arguments stem : simpl never.
Arguments name : simpl never.
Arguments parent : simpl never.
Arguments joinpath : simpl never.
Arguments suffix : simpl never.
Arguments lower : simpl never.
Arguments ancestors : simpl never.
Arguments to_float32 : simpl never.
Arguments zeros : simpl never.
Arguments set_slice : simpl never.
Arguments reshape : simpl never.
Arguments contains : simpl never.
Arguments Nat.modulo : simpl never.
Arguments Nat.div : simpl never.

(** Unfold the combinators and split on every test the code makes. *)
Ltac py_unfold := autounfold with py in *; simpl in *.
Ltac py_cases :=
  repeat (simplify_eq /=; try done;
          match goal with
          | |- context [match ?x with _ => _ end] => destruct x eqn:?
          | H : context [match ?x with _ => _ end] |- _ => destruct x eqn:?
          end);
  simplify_eq /=; try done.

Ltac unfold_resolve :=
  unfold run, main, resolve, validate_input, set_output_dir, load,
    determine_centroids, mkdir, mkdir_possible, explicit_centroids in *.

(** Close the branches of [resolve] that the hypotheses exclude, and name
    the reader the one that was opened. *)
Ltac resolve_cases :=
  py_cases; try congruence;
  try match goal with
      | H : existsb _ _ = true, H' : negb (existsb _ _) = true |- _ =>
          by rewrite H in H'
      end;
  repeat match goal with
         | H : ?t = _, H' : ?t = _ |- _ => rewrite H in H'; simplify_eq
         end.

(* ===================================================================== *)
(** * Index arithmetic of row-major arrays *)
(* ===================================================================== *)

Section Index.

Lemma flat_mod r c t w n : t < n -> ((r * w + c) * n + t) mod n = t.
Proof.
  intros Ht. rewrite Nat.add_comm, Nat.Div0.mod_add.
  by apply Nat.mod_small.
Qed.

Lemma flat_div r c t w n : t < n -> ((r * w + c) * n + t) / n = r * w + c.
Proof.
  intros Ht. rewrite Nat.div_add_l by lia.
  rewrite Nat.div_small by done. lia.
Qed.

Lemma pixel_row r c w : c < w -> (r * w + c) / w = r.
Proof.
  intros Hc. rewrite Nat.div_add_l by lia.
  rewrite Nat.div_small by done. lia.
Qed.

Lemma pixel_col r c w : c < w -> (r * w + c) mod w = c.
Proof.
  intros Hc. rewrite Nat.add_comm, Nat.Div0.mod_add.
  by apply Nat.mod_small.
Qed.

Lemma flat_lt r c t h w n :
  r < h -> c < w -> t < n -> (r * w + c) * n + t < h * w * n.
Proof.
  intros Hr Hc Ht.
  assert (r * w + c + 1 <= h * w) as Hp by nia.
  assert ((r * w + c + 1) * n <= h * w * n) by (by apply Nat.mul_le_mono_r).
  lia.
Qed.

(** A pixel number splits into its row and column. *)
Lemma pixel_split p w : 0 < w -> p / w * w + p mod w = p.
Proof. intros Hw. pose proof (Nat.div_mod_eq p w). lia. Qed.

End Index.

(* ===================================================================== *)
(** * Slice assignment and reshape *)
(* ===================================================================== *)

Section Arrays.

Lemma broadcastable_refl k : broadcastable k k = true.
Proof. unfold broadcastable. by rewrite Nat.eqb_refl. Qed.


Lemma zeros_shape h w n : shape3 (zeros h w n) = (h, w, n).
Proof. done. Qed.

Lemma zeros_length h w n : length (data3 (zeros h w n)) = h * w * n.
Proof. unfold zeros. simpl. apply length_replicate. Qed.

Lemma zeros_lookup h w n k :
  k < h * w * n -> data3 (zeros h w n) !! k = Some zero.
Proof. intros Hk. unfold zeros. simpl. by apply lookup_replicate_2. Qed.

Lemma set_slice_Some a i im a' :
  set_slice a i im = Some a' ->
  shape3 a' = shape3 a /\ length (data3 a') = length (data3 a) /\
  broadcastable (height im) (shape3 a).1.1 = true /\
  broadcastable (width im) (shape3 a).1.2 = true.
Proof.
  unfold set_slice. destruct (shape3 a) as [[h w] n] eqn:Hs.
  destruct (broadcastable (height im) h) eqn:Eh;
    destruct (broadcastable (width im) w) eqn:Ew; simpl; try done.
  intros [= <-]. simpl. by rewrite length_imap.
Qed.

Lemma set_slice_None a i im :
  set_slice a i im = None ->
  broadcastable (height im) (shape3 a).1.1 &&
  broadcastable (width im) (shape3 a).1.2 = false.
Proof.
  unfold set_slice. destruct (shape3 a) as [[h w] n] eqn:Hs. simpl.
  by destruct (_ && _).
Qed.

Lemma set_slice_fits a i im :
  broadcastable (height im) (shape3 a).1.1 &&
  broadcastable (width im) (shape3 a).1.2 = true ->
  is_Some (set_slice a i im).
Proof.
  unfold set_slice. destruct (shape3 a) as [[h w] n] eqn:Hs. simpl.
  intros ->. by eexists.
Qed.

(** What a cell holds after [a[:, :, i] = ion_array]. *)
Lemma set_slice_lookup a i im a' h w n r c t :
  shape3 a = (h, w, n) ->
  set_slice a i im = Some a' ->
  r < h -> c < w -> t < n ->
  data3 a' !! ((r * w + c) * n + t) =
    (fun v => if t =? i
              then pix im (bidx (height im) r) (bidx (width im) c) else v)
      <$> data3 a !! ((r * w + c) * n + t).
Proof.
  intros Hs Hset Hr Hc Ht. unfold set_slice in Hset. rewrite Hs in Hset.
  destruct (_ && _); [|done]. injection Hset as <-. simpl.
  rewrite list_lookup_imap.
  rewrite flat_mod, flat_div, pixel_row, pixel_col by done.
  done.
Qed.

Lemma reshape_Some a h w n :
  shape3 a = (h, w, n) -> length (data3 a) = h * w * n -> 0 < n ->
  reshape a n = Some {| shape2 := (h * w, n); data2 := data3 a |}.
Proof.
  intros Hs Hl Hn. unfold reshape. rewrite Hl.
  destruct (n =? 0) eqn:E; [apply Nat.eqb_eq in E; lia|].
  rewrite Nat.Div0.mod_mul, Nat.eqb_refl, Nat.div_mul by lia. done.
Qed.

(** The flattened array read at [(p, t)] is the spatial array read at row
    [p / w], column [p mod w]. *)
Lemma reshape_get a b h w n p t :
  shape3 a = (h, w, n) -> length (data3 a) = h * w * n ->
  reshape a n = Some b ->
  p < h * w -> t < n ->
  get2 b p t = get3 a (p / w) (p mod w) t /\ is_Some (get2 b p t).
Proof.
  intros Hs Hl Hre Hp Ht.
  assert (0 < w) as Hw by (destruct w; [lia|lia]).
  rewrite (reshape_Some a h w n) in Hre by (done || lia).
  injection Hre as <-. unfold get2, get3. rewrite Hs. simpl.
  assert (p / w < h) as Hrow.
  { apply Nat.Div0.div_lt_upper_bound. lia. }
  assert (p mod w < w) as Hcol by (apply Nat.mod_upper_bound; lia).
  repeat match goal with
         | |- context [?x <? ?y] =>
             destruct (Nat.ltb_spec x y); [|lia]
         end.
  simpl. rewrite pixel_split by done. split; [done|].
  apply lookup_lt_is_Some. rewrite Hl. nia.
Qed.

End Arrays.

(* ===================================================================== *)
(** * One iteration of the extraction loop *)
(* ===================================================================== *)

Section Iteration.

Variable args : Args.
Variable world : World.
Variables imzml_path output_dir : Path.
Variable img : Reader.
Variable n : nat.

Local Abbreviation tol := (tolerance args).
Local Abbreviation body :=
  (process_centroid args world imzml_path output_dir img n).

(** An iteration never raises: [except Exception] catches whatever the
    [try] block raises, and nothing in the block exits. *)
Lemma process_centroid_returns i mz s : (body i mz s).1 = Return tt.
Proof.
  unfold process_centroid, try_centroid. py_unfold.
  py_cases.
Qed.

Lemma process_centroid_locals i mz s :
  image_shape (body i mz s).2 = next_shape args img s i mz /\
  data_matrix_3d (body i mz s).2 = next_matrix args img n s i mz /\
  data_matrix_2d (body i mz s).2 = data_matrix_2d s.
Proof.
  unfold process_centroid, try_centroid, next_shape, next_matrix. py_unfold.
  py_cases.
Qed.

End Iteration.

(* ===================================================================== *)
(** * The extraction loop *)
(* ===================================================================== *)

(** Induction over [for i, mz in enumerate(cs)] when the body never
    raises: a property indexed by the number of items done. *)
Lemma for_enumerate_ind (body : nat -> float -> M unit)
    (P : nat -> State -> Prop) (cs : list float) :
  (forall i mz s, (body i mz s).1 = Return tt) ->
  (forall i mz s, cs !! i = Some mz -> P i s -> P (S i) (body i mz s).2) ->
  forall s, P 0 s ->
    (for_enumerate body 0 cs s).1 = Return tt /\
    P (length cs) (for_enumerate body 0 cs s).2.
Proof.
  intros Hret Hstep.
  assert (forall l i s, (forall k, l !! k = cs !! (i + k)) -> P i s ->
            (for_enumerate body i l s).1 = Return tt /\
            P (i + length l) (for_enumerate body i l s).2) as Hgen.
  { induction l as [|x l IH]; intros i s Hl HP; simpl.
    - rewrite Nat.add_0_r. done.
    - unfold bind. specialize (Hret i x s).
      destruct (body i x s) as [r s1] eqn:Eb. simpl in Hret. subst r.
      assert (P (S i) s1) as HP1.
      { specialize (Hstep i x s). rewrite Eb in Hstep. apply Hstep; [|done].
        specialize (Hl 0). rewrite Nat.add_0_r in Hl. done. }
      destruct (IH (S i) s1) as [H1 H2]; [|done|].
      + intros k. specialize (Hl (S k)). simpl in Hl.
        by replace (S i + k) with (i + S k) by lia.
      + split; [done|]. by replace (i + S (length l)) with (S i + length l) by lia. }
  intros s HP. apply (Hgen cs 0 s); [done|done].
Qed.

Section Loop.

Variable args : Args.
Variable world : World.
Variables imzml_path output_dir : Path.
Variable img : Reader.
Variable cs : list float.

Local Abbreviation tol := (tolerance args).
Local Abbreviation n := (length cs).
Local Abbreviation body :=
  (process_centroid args world imzml_path output_dir img (length cs)).

Lemma acc_inv_step k mz s :
  cs !! k = Some mz -> acc_inv args img cs k s ->
  acc_inv args img cs (S k) (body k mz s).2.
Proof.
  intros Hk Hinv.
  destruct (process_centroid_locals args world imzml_path output_dir img n
              k mz s) as (Hsh & Hm & _).
  unfold acc_inv in *. rewrite Hsh, Hm. clear Hsh Hm.
  unfold next_shape, next_matrix.
  destruct (GetImage img k mz tol) as [e|im] eqn:Hget.
  - (* the extraction failed *)
    destruct (data_matrix_3d s) as [a|], (image_shape s) as [[W H]|]; try done.
    + destruct Hinv as (Hs & Hl & (j0 & Hj0 & Hfirst) & Hv).
      split_and!; try done; [exists j0; split; [lia|done]|].
      intros j r c Hj Hr Hc. rewrite Hv by done. f_equal.
      destruct (decide (j = k)) as [->|Hne].
      * rewrite (proj2 (Nat.ltb_lt k (S k))) by lia.
        rewrite (proj2 (Nat.ltb_ge k k)) by lia.
        unfold slice_value. by rewrite Hk, Hget.
      * destruct (Nat.ltb_spec j k), (Nat.ltb_spec j (S k)); done || lia.
    + intros Hw j mz' Hj Hjm.
      destruct (decide (j = k)) as [->|Hne].
      * rewrite Hk in Hjm. injection Hjm as <-. by eexists.
      * apply (Hinv Hw j); [lia|done].
  - (* an image came back *)
    destruct (wants_npy args && bool_decide (image_shape s = None)) eqn:Ealloc.
    + (* first image: allocate, then assign *)
      apply andb_true_iff in Ealloc as [Hw Hnone].
      apply bool_decide_eq_true in Hnone. rewrite Hnone in Hinv.
      destruct (data_matrix_3d s) as [a|]; [done|].
      destruct (set_slice_fits (zeros (height im) (width im) n) k
                  (Cast_Float32 im)) as [a' Ha'].
      { simpl. by rewrite !broadcastable_refl. }
      rewrite Ha'.
      destruct (set_slice_Some _ _ _ _ Ha') as (Hs & Hl & _).
      rewrite zeros_shape in Hs. rewrite zeros_length in Hl.
      split_and!; try done.
      { exists k. split; [lia|]. split; [by exists mz, im|].
        intros j' mz' Hj' Hjm'. by apply (Hinv Hw j'). }
      intros j r c Hj Hr Hc.
      rewrite (set_slice_lookup (zeros (height im) (width im) n) k
                 (Cast_Float32 im) a' (height im) (width im) n)
        by (done || apply zeros_shape).
      rewrite zeros_lookup by (by apply flat_lt). simpl. f_equal.
      destruct (Nat.eqb_spec j k) as [->|Hne].
      * rewrite (proj2 (Nat.ltb_lt k (S k))) by lia.
        unfold slice_value. rewrite Hk, Hget, !broadcastable_refl. done.
      * destruct (Nat.ltb_spec j (S k)); [|done].
        unfold slice_value. destruct (cs !! j) as [mzj|] eqn:Hjm; [|done].
        destruct (Hinv Hw j mzj) as [e ->]; [lia|done|done].
    + (* the accumulator, if any, is already there *)
      destruct (data_matrix_3d s) as [a|] eqn:Hd,
               (image_shape s) as [[W H]|] eqn:Hi; try done.
      * destruct Hinv as (Hs & Hl & (j0 & Hj0 & Hfirst) & Hv).
        assert (exists j, j < S k /\ first_image args img cs W H j) as Hfirst'
          by (exists j0; split; [lia|done]).
        destruct (set_slice a k (Cast_Float32 im)) as [a'|] eqn:Ha'.
        -- destruct (set_slice_Some _ _ _ _ Ha') as (Hs' & Hl' & Hbh & Hbw).
           rewrite Hs in Hs', Hbh, Hbw. simpl in Hbh, Hbw.
           split_and!; try congruence.
           intros j r c Hj Hr Hc.
           rewrite (set_slice_lookup a k (Cast_Float32 im) a' H W n) by done.
           rewrite Hv by done. simpl. f_equal.
           destruct (Nat.eqb_spec j k) as [->|Hne].
           ++ rewrite (proj2 (Nat.ltb_lt k (S k))) by lia.
              unfold slice_value. rewrite Hk, Hget, Hbh, Hbw. done.
           ++ destruct (Nat.ltb_spec j k), (Nat.ltb_spec j (S k)); done || lia.
        -- apply set_slice_None in Ha'. rewrite Hs in Ha'. simpl in Ha'.
           split_and!; try done.
           intros j r c Hj Hr Hc. rewrite Hv by done. f_equal.
           destruct (decide (j = k)) as [->|Hne].
           ++ rewrite (proj2 (Nat.ltb_lt k (S k))) by lia.
              rewrite (proj2 (Nat.ltb_ge k k)) by lia.
              unfold slice_value. rewrite Hk, Hget. simpl in Ha'.
              by rewrite Ha'.
           ++ destruct (Nat.ltb_spec j k), (Nat.ltb_spec j (S k)); done || lia.
      * intros Hw. rewrite Hw in Ealloc. by simpl in Ealloc.
Qed.

Lemma extract_loop s :
  extract args world imzml_path output_dir img cs s =
  for_enumerate body 0 cs (announce args cs s).
Proof.
  unfold extract, announce. py_unfold. unfold set_log. simpl.
  by rewrite <- !app_assoc.
Qed.

(** The loop returns, and the invariant holds for all [n] items. *)
Lemma loop_acc_inv s :
  acc_inv args img cs 0 s ->
  (for_enumerate body 0 cs s).1 = Return tt /\
  acc_inv args img cs n (for_enumerate body 0 cs s).2.
Proof.
  apply (for_enumerate_ind body (acc_inv args img cs) cs).
  - intros. apply process_centroid_returns.
  - intros. by apply acc_inv_step.
Qed.

(** The same for [extract], started with the locals as line 163-165 set
    them. *)
Lemma extract_acc_inv s :
  data_matrix_3d s = None -> image_shape s = None ->
  (extract args world imzml_path output_dir img cs s).1 = Return tt /\
  acc_inv args img cs n (extract args world imzml_path output_dir img cs s).2.
Proof.
  intros Hd Hi. rewrite extract_loop. apply loop_acc_inv.
  unfold acc_inv, announce. simpl. rewrite Hd, Hi. intros _ j mz Hj. lia.
Qed.

(** Reading a cell of an accumulator that satisfies the invariant. *)
Lemma acc_inv_get3 s a W H i r c :
  acc_inv args img cs n s ->
  data_matrix_3d s = Some a -> image_shape s = Some (W, H) ->
  i < n -> r < H -> c < W ->
  get3 a r c i = Some (slice_value args img cs H W i r c).
Proof.
  unfold acc_inv. intros Hinv Hd Hsh Hi Hr Hc. rewrite Hd, Hsh in Hinv.
  destruct Hinv as (Hs & _ & _ & Hv).
  unfold get3. rewrite Hs.
  destruct (Nat.ltb_spec r H), (Nat.ltb_spec c W), (Nat.ltb_spec i n);
    try lia.
  simpl. rewrite Hv by done.
  by rewrite (proj2 (Nat.ltb_lt i n)).
Qed.

End Loop.

(* ===================================================================== *)
(** * The accumulator *)
(* ===================================================================== *)



(** For a source whose images all are [w] by [h], with array output
    requested and at least one target whose image comes back, the loop
    leaves an accumulator of shape [(h, w, len(cs))]. *)
Lemma extract_accumulator_shape (args : Args) (world : World)
    (imzml_path output_dir : Path) (img : Reader) (cs : list float)
    (s : State) (w h : nat) :
  wants_npy args = true ->
  data_matrix_3d s = None -> image_shape s = None ->
  (forall i mz im, GetImage img i mz (tolerance args) = inr im ->
     width im = w /\ height im = h) ->
  (exists i mz im, cs !! i = Some mz /\
     GetImage img i mz (tolerance args) = inr im) ->
  exists a,
    data_matrix_3d (extract args world imzml_path output_dir img cs s).2 = Some a /\
    shape3 a = (h, w, length cs).
Proof.
  intros Hw Hd Hi Hfix (i & mz & im & Hi' & Hget).
  destruct (extract_acc_inv args world imzml_path output_dir img cs s Hd Hi)
    as [_ Hinv].
  unfold acc_inv in Hinv.
  destruct (data_matrix_3d (extract _ _ _ _ _ _ _).2) as [a|],
           (image_shape (extract _ _ _ _ _ _ _).2) as [[W H]|];
    try done.
  - destruct Hinv as (Hs & _ & (j & _ & (mzj & imj & _ & Hgj & -> & ->) & _) & _).
    destruct (Hfix _ _ _ Hgj) as [<- <-]. by exists a.
  - destruct (Hinv Hw i mz) as [e He]; [by eapply lookup_lt_Some|done|].
    congruence.
Qed.

(** C4 as stated fails: with array output requested, a non-empty target
    list and every extraction failing, the run ends without an accumulator,
    so there is nothing of shape [(h, w, len(cs))]. *)
Lemma no_accumulator_when_all_fail :
  let args := Sample.with_flags false true false Sample.args0 in
  let r := run args (Sample.world Sample.all_fail) Sample.disk in
  wants_npy args = true /\
  data_matrix_3d r.2 = None /\
  ~ (exists a h w, data_matrix_3d r.2 = Some a /\ shape3 a = (h, w, 2)).
Proof.
  simpl. split; [reflexivity|].
  assert (data_matrix_3d
            (run (Sample.with_flags false true false Sample.args0)
               (Sample.world Sample.all_fail) Sample.disk).2 = None) as E
    by (vm_compute; reflexivity).
  split; [exact E|]. intros (a & h & w & Ha & _). rewrite E in Ha. done.
Qed.

(* ===================================================================== *)
(** * The whole run *)
(* ===================================================================== *)

Section Run.

Variable args : Args.
Variable world : World.

(** Lines 100-154 touch none of the loop's variables. *)
Lemma resolve_locals s : same_locals s (resolve args world s).2.
Proof.
  unfold same_locals, resolve, validate_input, set_output_dir, load,
    determine_centroids, mkdir.
  py_unfold. py_cases.
Qed.

(** The list [resolve] returns is never empty (line 152). *)
Lemma resolve_nonempty s ip od img cs s' :
  resolve args world s = (Return (ip, od, img, cs), s') -> 0 < length cs.
Proof.
  unfold resolve, validate_input, set_output_dir, load,
    determine_centroids, mkdir.
  py_unfold. intros Hr. py_cases.
  all: match goal with
       | H : (length _ =? 0) = false |- _ => apply Nat.eqb_neq in H; lia
       | |- 0 < S _ => lia
       end.
Qed.

(** The loop leaves [data_matrix_2d] alone. *)
Lemma extract_matrix_2d ip od img cs s :
  data_matrix_2d (extract args world ip od img cs s).2 = data_matrix_2d s.
Proof.
  rewrite extract_loop.
  apply (for_enumerate_ind
           (process_centroid args world ip od img (length cs))
           (fun _ s' => data_matrix_2d s' = data_matrix_2d s) cs).
  - intros. apply process_centroid_returns.
  - intros i mz s0 _ <-.
    apply (process_centroid_locals args world ip od img (length cs) i mz s0).
  - done.
Qed.

(** Lines 207-241 keep the accumulator, and the flattened array, if they
    set it, is the accumulator reshaped. *)
Lemma save_arrays_matrices ip od cs s :
  data_matrix_3d (save_arrays args ip od cs s).2 = data_matrix_3d s /\
  image_shape (save_arrays args ip od cs s).2 = image_shape s /\
  (data_matrix_2d (save_arrays args ip od cs s).2 = data_matrix_2d s \/
   exists a b, data_matrix_3d s = Some a /\ reshape a (length cs) = Some b /\
               data_matrix_2d (save_arrays args ip od cs s).2 = Some b).
Proof.
  unfold save_arrays. py_unfold. py_cases; split_and!; eauto;
    right; eauto 10.
Qed.

(** [convert] is the loop followed by the saving and the last messages. *)
Lemma convert_unfold ip od img cs s :
  convert args world (ip, od, img, cs) s =
  match extract args world ip od img cs s with
  | (Return _, s1) =>
      (when (wants_npy args) (save_arrays args ip od cs) ;;;
       when (save_nrrd args) (print (NrrdSavedTo od)) ;;;
       print ConversionComplete) s1
  | (Raise e, s1) => (Raise e, s1)
  end.
Proof. reflexivity. Qed.

Lemma convert_matrices ip od img cs s :
  let s1 := (extract args world ip od img cs s).2 in
  let s' := (convert args world (ip, od, img, cs) s).2 in
  data_matrix_3d s' = data_matrix_3d s1 /\
  image_shape s' = image_shape s1 /\
  (data_matrix_2d s' = data_matrix_2d s \/
   exists a b, data_matrix_3d s' = Some a /\ reshape a (length cs) = Some b /\
               data_matrix_2d s' = Some b).
Proof.
  cbv zeta. rewrite convert_unfold.
  pose proof (extract_matrix_2d ip od img cs s) as H2.
  destruct (extract args world ip od img cs s) as [r s1] eqn:Ee.
  simpl in *.
  pose proof (save_arrays_matrices ip od cs s1) as (H3 & Hsh & Hs).
  rewrite <- H2.
  destruct r as [[]|e]; [|simpl; split_and!; eauto].
  unfold when. destruct (wants_npy args).
  - unfold bind at 1.
    destruct (save_arrays args ip od cs s1) as [r2 s2] eqn:Es. simpl in *.
    assert (data_matrix_2d s2 = data_matrix_2d s1 \/
            exists a b, data_matrix_3d s2 = Some a /\
              reshape a (length cs) = Some b /\ data_matrix_2d s2 = Some b)
      as Hs'.
    { destruct Hs as [Hs|(a & b & Ha & Hb & Hs)]; [by left|].
      right. exists a, b. split_and!; congruence. }
    clear Hs. destruct r2 as [[]|e]; py_unfold; py_cases; split_and!; eauto.
  - py_unfold. py_cases; split_and!; eauto.
Qed.

End Run.

(** The sample file read with its own two centroids and
    [--save-npy-spatial]: the run ends normally and leaves a spatial array
    of shape [(2, 2, 2)] and the metadata with both m/z values. *)
Example sample_run_spatial :
  let r := run (Sample.with_flags false true false Sample.args0)
             (Sample.world Sample.all_ok) Sample.disk in
  r.1 = Return tt /\
  files (fs r.2) !! ["data"; "sample_data_metadata.npz"] =
    Some (NpzFile [Sample.mz 100; Sample.mz 200] (Sample.mz 75) 2 2
            "sample.imzML") /\
  exists a,
    files (fs r.2) !! ["data"; "sample_data_spatial.npy"]
      = Some (NpyFile3 (Some a)) /\
    shape3 a = (2, 2, 2).
Proof.
  cbv zeta. split; [vm_compute; reflexivity|].
  split; [vm_compute; reflexivity|].
  eexists. split; vm_compute; reflexivity.
Qed.

(* ===================================================================== *)
(** * The shape of the accumulator *)
(* ===================================================================== *)

(** C4, as amended.  Take a run whose steps 1-4 resolve the (non-empty)
    list [cs], with array output requested, a source whose images all are
    [w] by [h], and at least one target whose image comes back.  At the end
    of the run the accumulator has shape [(h, w, len(cs))], however many of
    the other targets fail.  (When every target fails there is no
    accumulator: see [no_accumulator_when_all_fail].) *)
Theorem accumulator_shape (args : Args) (world : World) (f : FS)
    (imzml_path output_dir : Path) (img : Reader) (cs : list float)
    (s1 : State) (w h : nat) :
  resolve args world (initial f)
    = (Return (imzml_path, output_dir, img, cs), s1) ->
  wants_npy args = true ->
  (forall i mz im, GetImage img i mz (tolerance args) = inr im ->
     width im = w /\ height im = h) ->
  (exists i mz im, cs !! i = Some mz /\
     GetImage img i mz (tolerance args) = inr im) ->
  0 < length cs /\
  exists a,
    data_matrix_3d (run args world f).2 = Some a /\
    shape3 a = (h, w, length cs).
Proof.
  intros Hres Hw Hfix Hok.
  split; [by eapply resolve_nonempty|].
  pose proof (resolve_locals args world (initial f)) as (H3 & _ & Hsh).
  rewrite Hres in H3, Hsh. simpl in H3, Hsh.
  destruct (extract_accumulator_shape args world imzml_path output_dir img cs
              s1 w h Hw H3 Hsh Hfix Hok) as (a & Ha & Hs).
  destruct (convert_matrices args world imzml_path output_dir img cs s1)
    as (E3 & _ & _).
  exists a. split; [|done].
  unfold run, main, bind. rewrite Hres. by rewrite E3.
Qed.

Lemma accumulator_shape_witness :
  let args := Sample.with_centroids
                [Sample.mz 100; Sample.mz 200; Sample.mz 300]
                (Sample.with_flags false true false Sample.args0) in
  let world := Sample.world Sample.first_fails in
  0 < 3 /\
  exists a,
    data_matrix_3d (run args world Sample.disk).2 = Some a /\
    shape3 a = (2, 2, 3).
Proof.
  apply (accumulator_shape
           (Sample.with_centroids
              [Sample.mz 100; Sample.mz 200; Sample.mz 300]
              (Sample.with_flags false true false Sample.args0))
           (Sample.world Sample.first_fails) Sample.disk
           ["data"; "sample.imzML"] ["data"]
           (Sample.reader Sample.first_fails)
           (map to_float32 [Sample.mz 100; Sample.mz 200; Sample.mz 300])
           (resolve
              (Sample.with_centroids
                 [Sample.mz 100; Sample.mz 200; Sample.mz 300]
                 (Sample.with_flags false true false Sample.args0))
              (Sample.world Sample.first_fails) (initial Sample.disk)).2
           2 2).
  - reflexivity.
  - reflexivity.
  - intros i mz im. simpl. unfold Sample.first_fails.
    destruct (i =? 0); [done|]. by intros [= <-].
  - exists 1, (to_float32 (Sample.mz 200)), (Sample.image 2 2 10).
    split; reflexivity.
Defined.

(* ===================================================================== *)
(** * The flattened array *)
(* ===================================================================== *)

(** C3. Whenever a run leaves both a spatial array and a flattened array,
    the flattened array is the spatial one reshaped: for a spatial shape
    [(h, w, n)] it has shape [(h * w, n)], and for every pixel [p < h * w]
    and target [t < n], [flattened[p, t] = spatial[p / w, p mod w, t]]. *)
Theorem flattened_is_reshape (args : Args) (world : World) (f : FS)
    (a : Array3) (b : Array2) :
  data_matrix_3d (run args world f).2 = Some a ->
  data_matrix_2d (run args world f).2 = Some b ->
  exists h w n, shape3 a = (h, w, n) /\ shape2 b = (h * w, n) /\
    forall p t, p < h * w -> t < n ->
      get2 b p t = get3 a (p / w) (p mod w) t /\ is_Some (get2 b p t).
Proof.
  unfold run, main, bind.
  pose proof (resolve_locals args world (initial f)) as (H3 & H2 & Hsh).
  destruct (resolve args world (initial f)) as [r s1] eqn:Er. simpl in *.
  destruct r as [[[[ip od] img] cs]|e]; [|simpl; congruence].
  pose proof (resolve_nonempty _ _ _ _ _ _ _ _ Er) as Hn.
  destruct (extract_acc_inv args world ip od img cs s1 H3 Hsh) as [_ Hinv].
  destruct (convert_matrices args world ip od img cs s1) as (E3 & Esh & E2).
  intros Ha Hb. rewrite H2 in E2.
  destruct E2 as [E2|(a' & b' & Ha' & Hre & Hb')]; [congruence|].
  assert (a' = a) as -> by congruence.
  assert (b' = b) as -> by congruence.
  unfold acc_inv in Hinv. rewrite <- E3, <- Esh, Ha in Hinv.
  destruct (image_shape (convert _ _ _ _).2) as [[W H]|]; [|done].
  destruct Hinv as (Hs & Hl & _ & _).
  exists H, W, (length cs). split; [done|]. split.
  - rewrite (reshape_Some a H W (length cs)) in Hre by done.
    by injection Hre as <-.
  - intros p t Hp Ht. by apply (reshape_get a b H W (length cs)).
Qed.

Lemma flattened_is_reshape_witness :
  exists a b,
    data_matrix_3d (run (Sample.with_flags false true true Sample.args0)
                      (Sample.world Sample.first_fails) Sample.disk).2 = Some a /\
    data_matrix_2d (run (Sample.with_flags false true true Sample.args0)
                      (Sample.world Sample.first_fails) Sample.disk).2 = Some b /\
    exists h w n, shape3 a = (h, w, n) /\ shape2 b = (h * w, n) /\
      forall p t, p < h * w -> t < n ->
        get2 b p t = get3 a (p / w) (p mod w) t /\ is_Some (get2 b p t).
Proof.
  eexists. eexists.
  split; [vm_compute; reflexivity|].
  split; [vm_compute; reflexivity|].
  apply (flattened_is_reshape (Sample.with_flags false true true Sample.args0)
           (Sample.world Sample.first_fails) Sample.disk);
    vm_compute; reflexivity.
Defined.

(* ===================================================================== *)
(** * Fatal conditions before the loop *)
(* ===================================================================== *)

(** C6. When the input path names nothing that exists, the run ends with
    exit status 1 after one line on stderr, and the file system is what it
    was: no file and no directory has been made. *)
Theorem missing_input_exits_1 (args : Args) (world : World) (f : FS) :
  path_exists f (Path_of (imzml_file args)) = false ->
  exit_status (run args world f).1 = 1%Z /\
  fs (run args world f).2 = f /\
  log (run args world f).2 =
    [Stderr (ErrInputMissing (Path_of (imzml_file args)))].
Proof.
  intros Hex. unfold run, main, resolve, validate_input. py_unfold.
  rewrite Hex. simpl. done.
Qed.

Lemma missing_input_exits_1_witness :
  let args := Sample.with_output_dir "out/new"
                (Sample.with_input "data/missing.imzML"
                   (Sample.with_flags true true true Sample.args0)) in
  exit_status (run args (Sample.world Sample.all_ok) Sample.disk).1 = 1%Z /\
  fs (run args (Sample.world Sample.all_ok) Sample.disk).2 = Sample.disk /\
  log (run args (Sample.world Sample.all_ok) Sample.disk).2 =
    [Stderr (ErrInputMissing ["data"; "missing.imzML"])].
Proof.
  apply (missing_input_exits_1
           (Sample.with_output_dir "out/new"
              (Sample.with_input "data/missing.imzML"
                 (Sample.with_flags true true true Sample.args0)))
           (Sample.world Sample.all_ok) Sample.disk).
  vm_compute. reflexivity.
Defined.

(** A path that is not the current directory is the last of its own
    ancestors. *)
Lemma ancestors_self (p : Path) : p <> [] -> p ∈ ancestors p.
Proof.
  intros Hp. unfold ancestors. apply list_elem_of_fmap.
  exists (length p). split; [by rewrite firstn_all|].
  apply list_elem_of_In, in_seq. destruct p; [done|simpl; lia].
Qed.

(** C8. With [--output-dir d] naming a directory that does not exist (and
    no file in the way), an input that exists and a reader that fails to
    open it, the run ends with status 1, and the directory and its
    ancestors are on disk: [mkdir] ran before the reader was asked, as the
    log shows.  No file has been written. *)
Theorem output_dir_made_before_open (args : Args) (world : World) (f : FS)
    (d e : string) :
  truthy_str (output_dir args) = Some d ->
  path_exists f (Path_of (imzml_file args)) = true ->
  path_exists f (Path_of d) = false ->
  existsb (is_file f) (ancestors (Path_of d)) = false ->
  ImzMLReader world (Path_of (imzml_file args)) = inl e ->
  let r := run args world f in
  exit_status r.1 = 1%Z /\
  is_dir (fs r.2) (Path_of d) = true /\
  (forall p, p ∈ ancestors (Path_of d) -> is_dir (fs r.2) p = true) /\
  files (fs r.2) = files f /\
  exists pre,
    Forall (fun ev => ev = Stderr WarnExtension) pre /\
    log r.2 = pre ++ [Mkdir (Path_of d);
                      Stdout (LoadingFile (Path_of (imzml_file args)));
                      OpenReader (Path_of (imzml_file args));
                      Stderr (ErrLoading e)].
Proof.
  intros Hd Hex Hmiss Hfree Hopen.
  assert (forall p, p ∈ ancestors (Path_of d) ->
            is_dir {| files := files f;
                      dirs := dirs f ∪ list_to_set (ancestors (Path_of d)) |}
              p = true) as Hanc.
  { intros p Hp. unfold is_dir. simpl. apply orb_true_iff. left.
    apply bool_decide_eq_true. set_solver. }
  assert (Path_of d <> []) as Hne.
  { intros E. unfold path_exists, is_dir in Hmiss. rewrite E in Hmiss.
    apply orb_false_iff in Hmiss as [_ Hmiss].
    apply orb_false_iff in Hmiss as [_ Hmiss]. done. }
  unfold run, main, resolve, validate_input, set_output_dir, load, mkdir.
  py_unfold. rewrite Hex, Hd. simpl.
  destruct (negb _) eqn:Ext; simpl; rewrite Hfree; simpl; rewrite Hopen;
    simpl.
  - split_and!; try done.
    + apply Hanc. by apply ancestors_self.
    + exists [Stderr WarnExtension]. split; [by repeat constructor|done].
  - split_and!; try done.
    + apply Hanc. by apply ancestors_self.
    + exists []. split; [by constructor|done].
Qed.

Lemma output_dir_made_before_open_witness :
  let args := Sample.with_output_dir "out/new" Sample.args0 in
  let r := run args Sample.broken_world Sample.disk in
  exit_status r.1 = 1%Z /\
  is_dir (fs r.2) ["out"; "new"] = true /\
  (forall p, p ∈ ancestors ["out"; "new"] -> is_dir (fs r.2) p = true) /\
  files (fs r.2) = files Sample.disk /\
  exists pre,
    Forall (fun ev => ev = Stderr WarnExtension) pre /\
    log r.2 = pre ++ [Mkdir ["out"; "new"];
                      Stdout (LoadingFile ["data"; "sample.imzML"]);
                      OpenReader ["data"; "sample.imzML"];
                      Stderr (ErrLoading "not an imzML file")].
Proof.
  apply (output_dir_made_before_open
           (Sample.with_output_dir "out/new" Sample.args0)
           Sample.broken_world Sample.disk "out/new" "not an imzML file");
    vm_compute; reflexivity.
Defined.

(* ===================================================================== *)
(** * Exit status when every target fails *)
(* ===================================================================== *)

(** C1 fails on the code.  The input exists, the reader opens it, two
    centroids are resolved and the tolerance is set; both extractions fail.
    With [--save-npy-spatial] the run saves [None], then reads
    [data_matrix_3d.shape] (line 219) and ends on the [AttributeError];
    with [--save-npy-list] it ends on [data_matrix_3d.reshape] (line 224).
    Either way the exit status is 1, and the metadata file of line 233,
    written with zero sizes when no image came back, is never reached. *)
Theorem exit_status_when_all_fail :
  let spatial := run (Sample.with_flags false true false Sample.args0)
                   (Sample.world Sample.all_fail) Sample.disk in
  let lst := run (Sample.with_flags false false true Sample.args0)
               (Sample.world Sample.all_fail) Sample.disk in
  spatial.1 = Raise (Exception "AttributeError"
                       "'NoneType' object has no attribute 'shape'") /\
  exit_status spatial.1 = 1%Z /\
  lst.1 = Raise (Exception "AttributeError"
                   "'NoneType' object has no attribute 'reshape'") /\
  exit_status lst.1 = 1%Z /\
  take 10 (log spatial.2) = sample_prelude /\
  take 10 (log lst.2) = sample_prelude /\
  files (fs lst.2) !! ["data"; "sample_data_metadata.npz"] = None.
Proof. vm_compute. done. Qed.

(** Without array output the same run ends with status 0. *)
Lemma exit_status_all_fail_nrrd_only :
  exit_status (run (Sample.with_flags true false false Sample.args0)
                 (Sample.world Sample.all_fail) Sample.disk).1 = 0%Z.
Proof. vm_compute. reflexivity. Qed.

(* ===================================================================== *)
(** * Progress reports *)
(* ===================================================================== *)



(* ===================================================================== *)
(** * Images of another size *)
(* ===================================================================== *)

Lemma set_slice_no_fit a i im :
  broadcastable (height im) (shape3 a).1.1 &&
  broadcastable (width im) (shape3 a).1.2 = false ->
  set_slice a i im = None.
Proof.
  unfold set_slice. destruct (shape3 a) as [[h w] n]. simpl. by intros ->.
Qed.

(** The loop never raises, whatever the state it starts in. *)
Lemma extract_returns args world imzml_path output_dir img cs s :
  (extract args world imzml_path output_dir img cs s).1 = Return tt.
Proof.
  rewrite extract_loop.
  apply (for_enumerate_ind
           (process_centroid args world imzml_path output_dir img (length cs))
           (fun _ _ => True) cs); [|done|done].
  intros. apply process_centroid_returns.
Qed.

(** C10, as amended.  Take an image that came back for item [i] and whose
    size cannot be broadcast to the accumulator's: one of its axes differs
    from the accumulator's and is not 1.  Then the loop still returns; the
    iteration of item [i], in any state whose accumulator has that shape,
    only asks for the image and prints the warning naming the m/z value,
    leaving accumulator and files as they were; and slice [i] of the final
    accumulator is all zero. *)
Theorem dimension_mismatch_is_recoverable (args : Args) (world : World)
    (imzml_path output_dir : Path) (img : Reader) (cs : list float)
    (s : State) (i : nat) (mz : float) (im : Image) (a : Array3) :
  data_matrix_3d s = None -> image_shape s = None ->
  cs !! i = Some mz ->
  GetImage img i mz (tolerance args) = inr im ->
  data_matrix_3d (extract args world imzml_path output_dir img cs s).2 = Some a ->
  broadcastable (height im) (shape3 a).1.1 &&
  broadcastable (width im) (shape3 a).1.2 = false ->
  (extract args world imzml_path output_dir img cs s).1 = Return tt /\
  (forall r c, r < (shape3 a).1.1 -> c < (shape3 a).1.2 ->
     get3 a r c i = Some zero) /\
  (forall s0 a0 sh,
     data_matrix_3d s0 = Some a0 -> image_shape s0 = Some sh ->
     shape3 a0 = shape3 a ->
     process_centroid args world imzml_path output_dir img (length cs) i mz s0
     = (Return tt,
        set_log (log s0 ++
                 [AskImage mz (tolerance args);
                  Stderr (WarnFailed (fmt4 mz)
                            "could not broadcast input array")]) s0)).
Proof.
  intros Hd Hi Hmz Hget Ha Hno.
  split; [apply extract_returns|]. split.
  - destruct (extract_acc_inv args world imzml_path output_dir img cs s Hd Hi)
      as [_ Hinv].
    pose proof Hinv as Hinv'. unfold acc_inv in Hinv'. rewrite Ha in Hinv'.
    destruct (image_shape (extract _ _ _ _ _ _ _).2) as [[W H]|] eqn:Hsh;
      [|done].
    destruct Hinv' as (Hs & _ & _ & _). rewrite Hs in *. simpl in *.
    intros r c Hr Hc.
    rewrite (acc_inv_get3 args img cs _ a W H i r c Hinv Ha Hsh)
      by (done || by eapply lookup_lt_Some).
    unfold slice_value. by rewrite Hmz, Hget, Hno.
  - intros s0 a0 sh Hd0 Hi0 Hshape.
    unfold process_centroid, try_centroid. py_unfold.
    rewrite Hget. simpl. rewrite Hi0. simpl. rewrite andb_false_r. simpl.
    rewrite Hd0.
    rewrite set_slice_no_fit by (by rewrite Hshape).
    unfold set_log. simpl. by rewrite <- app_assoc.
Qed.

Lemma dimension_mismatch_is_recoverable_witness :
  let args := Sample.with_flags false true false Sample.args0 in
  let cs := [Sample.mz 100; Sample.mz 200] in
  let ext := extract args (Sample.world Sample.then_larger)
               ["data"; "sample.imzML"] ["data"]
               (Sample.reader Sample.then_larger) cs (initial Sample.disk) in
  exists a,
    data_matrix_3d ext.2 = Some a /\
    ext.1 = Return tt /\
    (forall r c, r < (shape3 a).1.1 -> c < (shape3 a).1.2 ->
       get3 a r c 1 = Some zero) /\
    (forall s0 a0 sh,
       data_matrix_3d s0 = Some a0 -> image_shape s0 = Some sh ->
       shape3 a0 = shape3 a ->
       process_centroid args (Sample.world Sample.then_larger)
         ["data"; "sample.imzML"] ["data"]
         (Sample.reader Sample.then_larger) (length cs) 1 (Sample.mz 200) s0
       = (Return tt,
          set_log (log s0 ++
                   [AskImage (Sample.mz 200) (tolerance args);
                    Stderr (WarnFailed (fmt4 (Sample.mz 200))
                              "could not broadcast input array")]) s0)).
Proof.
  cbv zeta. eexists. split; [vm_compute; reflexivity|].
  apply (dimension_mismatch_is_recoverable
           (Sample.with_flags false true false Sample.args0)
           (Sample.world Sample.then_larger) ["data"; "sample.imzML"] ["data"]
           (Sample.reader Sample.then_larger)
           [Sample.mz 100; Sample.mz 200] (initial Sample.disk)
           1 (Sample.mz 200) (Sample.image 3 3 20));
    [reflexivity | reflexivity | reflexivity | reflexivity
    | vm_compute; reflexivity | reflexivity].
Defined.

(** C10 as stated fails: after a 2 by 2 image, an image of one row and two
    columns has another size, yet its assignment does not fail.  numpy
    repeats the row, slice 1 is filled and no warning is printed. *)
Lemma one_row_image_is_broadcast :
  let r := run (Sample.with_flags false true false Sample.args0)
             (Sample.world Sample.then_one_row) Sample.disk in
  Sample.then_one_row 0 = inr (Sample.image 2 2 10) /\
  Sample.then_one_row 1 = inr (Sample.image 2 1 20) /\
  r.1 = Return tt /\
  List.filter is_warning (log r.2) = [] /\
  exists a, data_matrix_3d r.2 = Some a /\
    shape3 a = (2, 2, 2) /\
    get3 a 0 0 1 = Some (to_float32 (Sample.mz 20)) /\
    get3 a 1 0 1 = Some (to_float32 (Sample.mz 20)) /\
    get3 a 0 1 1 = Some (to_float32 (Sample.mz 21)) /\
    get3 a 1 1 1 = Some (to_float32 (Sample.mz 21)).
Proof.
  cbv zeta. split; [reflexivity|]. split; [reflexivity|].
  split; [vm_compute; reflexivity|]. split; [vm_compute; reflexivity|].
  eexists. split; [vm_compute; reflexivity|].
  vm_compute. done.
Qed.

(* ===================================================================== *)
(** * Image files *)
(* ===================================================================== *)

Section ImageFiles.

Variable args : Args.
Variable world : World.
Variables imzml_path output_dir : Path.
Variable img : Reader.
Variable n : nat.

Local Abbreviation tol := (tolerance args).
Local Abbreviation body :=
  (process_centroid args world imzml_path output_dir img n).

Lemma process_centroid_files i mz s :
  files (fs (body i mz s).2)
    = next_files args world imzml_path output_dir img n s i mz /\
  dirs (fs (body i mz s).2) = dirs (fs s).
Proof.
  unfold process_centroid, try_centroid, next_files, reaches_write,
    assign_ok, cur_matrix.
  py_unfold. py_cases.
all: match goal with
       | H : _ && false = true |- _ => by rewrite andb_false_r in H
       end.
Qed.

(** The events of an iteration: the source's centroid list is not asked
    for, and an image write is attempted exactly when line 199 is
    reached. *)
Lemma process_centroid_log i mz s :
  exists evs,
    log (body i mz s).2 = log s ++ evs /\
    forallb not_xaxis evs = true /\
    List.filter is_image_write evs =
      if reaches_write args img n s i mz
      then [ImageWrite (nrrd_path imzml_path output_dir mz)] else [].
Proof.
  unfold process_centroid, try_centroid, reaches_write, assign_ok, cur_matrix.
  py_unfold.
  py_cases; rewrite <- ?app_assoc; eexists; (split; [reflexivity|]);
    simpl; try done.
  all: match goal with
       | H : _ && false = true |- _ => by rewrite andb_false_r in H
       end.
Qed.

End ImageFiles.

Section Frames.

Variable args : Args.
Variable world : World.

Lemma convert_finish ip od img cs s :
  convert args world (ip, od, img, cs) s =
  (extract args world ip od img cs ;;; finish args ip od cs) s.
Proof. reflexivity. Qed.

(** After the loop no image is written, the centroid list is not asked
    for, and no file disappears. *)
Lemma finish_frame ip od cs s :
  (exists evs,
     log (finish args ip od cs s).2 = log s ++ evs /\
     forallb not_xaxis evs = true /\
     List.filter is_image_write evs = []) /\
  forall p, is_Some (files (fs s) !! p) ->
            is_Some (files (fs (finish args ip od cs s).2) !! p).
Proof.
  unfold finish, save_arrays. py_unfold.
  py_cases; (split;
    [rewrite <- ?app_assoc; eexists;
     (split; [first [reflexivity | exact (eq_sym (app_nil_r _))]|]);
     simpl; done
    |intros ? ?; rewrite ?lookup_insert_is_Some'; auto]).
Qed.

(** The whole loop: the centroid list is not asked for. *)
Lemma extract_log ip od img cs s :
  exists evs,
    log (extract args world ip od img cs s).2 = log s ++ evs /\
    forallb not_xaxis evs = true.
Proof.
  rewrite extract_loop.
  destruct (for_enumerate_ind
              (process_centroid args world ip od img (length cs))
              (fun _ s' => exists evs, log s' = log s ++ evs /\
                                       forallb not_xaxis evs = true)
              cs) with (s := announce args cs s) as [_ H]; [| | |done].
  - intros. apply process_centroid_returns.
  - intros i mz s0 _ (evs & Hl & Hq).
    destruct (process_centroid_log args world ip od img (length cs) i mz s0)
      as (evs' & Hl' & Hq' & _).
    exists (evs ++ evs'). rewrite Hl', Hl, app_assoc. split; [done|].
    by rewrite forallb_app, Hq, Hq'.
  - eexists. split; [reflexivity|]. done.
Qed.

(** With an explicit list, lines 100-154 do not ask for the source's
    centroids, whatever else happens. *)
Lemma resolve_explicit_log c l s :
  centroids args = Some (c :: l) ->
  exists evs,
    log (resolve args world s).2 = log s ++ evs /\
    forallb not_xaxis evs = true /\
    List.filter is_image_write evs = [].
Proof.
  intros Hc.
  unfold resolve, validate_input, set_output_dir, load,
    determine_centroids, mkdir.
  py_unfold. rewrite Hc.
  py_cases; rewrite <- ?app_assoc; eexists; (split; [reflexivity|]);
    simpl; try done; by rewrite app_nil_r.
Qed.

(** With an explicit list, an input that exists and a reader that opens
    it, lines 100-154 return that list cast to float32 and write no
    file. *)
Lemma resolve_explicit c l img s :
  centroids args = Some (c :: l) ->
  path_exists (fs s) (Path_of (imzml_file args)) = true ->
  mkdir_possible args (fs s) = true ->
  ImzMLReader world (Path_of (imzml_file args)) = inr img ->
  (resolve args world s).1 =
    Return (Path_of (imzml_file args),
            resolved_output_dir args (Path_of (imzml_file args)),
            img, map to_float32 (c :: l)) /\
  files (fs (resolve args world s).2) = files (fs s) /\
  same_locals s (resolve args world s).2.
Proof.
  intros Hc Hex Hmk Hopen. split_and!; [| |apply resolve_locals].
  - unfold resolve, validate_input, set_output_dir, load,
      determine_centroids, mkdir, resolved_output_dir, mkdir_possible in *.
    py_unfold. rewrite Hc, Hex. simpl.
    py_cases; try congruence.
    all: match goal with
         | H : existsb _ _ = true, H' : negb (existsb _ _) = true |- _ =>
             by rewrite H in H'
         end.
  - unfold resolve, validate_input, set_output_dir, load,
      determine_centroids, mkdir, resolved_output_dir, mkdir_possible in *.
    py_unfold. rewrite Hc, Hex. simpl.
    py_cases; try congruence.
    all: match goal with
         | H : existsb _ _ = true, H' : negb (existsb _ _) = true |- _ =>
             by rewrite H in H'
         end.
Qed.

End Frames.

(* ===================================================================== *)
(** * An explicit list of one centroid *)
(* ===================================================================== *)

(** The first image always fits the accumulator made for it. *)
Lemma assign_ok_fresh args n s i im :
  data_matrix_3d s = None -> image_shape s = None ->
  assign_ok args n s i im = true.
Proof.
  intros Hd Hi. unfold assign_ok, cur_matrix. rewrite Hd, Hi.
  destruct (wants_npy args); simpl; [|done].
  destruct (set_slice_fits (zeros (height im) (width im) n) i
              (Cast_Float32 im)) as [a' ->]; [|done].
  simpl. by rewrite !broadcastable_refl.
Qed.

(** 150.25 is a float32, and [:.4f] renders it with four decimals. *)
Lemma fmt4_150_25 : fmt4 (to_float32 Sample.mz_150_25) = "150.2500".
Proof. vm_compute. reflexivity. Qed.

Local Abbreviation input_path args := (Path_of (imzml_file args)).
Local Abbreviation out_dir args :=
  (resolved_output_dir args (Path_of (imzml_file args))).
Local Abbreviation mz32 := (to_float32 Sample.mz_150_25).

(** C5, as amended.  Take a run with the explicit list [--centroids 150.25]
    and [--save-nrrd], whose input exists and opens, and in which the
    extraction and the write for that value succeed.  The value is cast to
    float32 and rendered as [150.2500]: exactly one image write is made, to
    [<stem>_mz_150.2500.nrrd] in the output directory, that file is on disk
    at the end, and the source's own centroid list is never asked for. *)
Theorem explicit_centroid_one_file (args : Args) (world : World) (f : FS)
    (img : Reader) (im : Image) :
  let ip := Path_of (imzml_file args) in
  let p := joinpath (resolved_output_dir args ip)
             (Path_of (stem ip +:+ "_mz_150.2500.nrrd")) in
  centroids args = Some [Sample.mz_150_25] ->
  save_nrrd args = true ->
  path_exists f ip = true ->
  mkdir_possible args f = true ->
  ImzMLReader world ip = inr img ->
  GetImage img 0 (to_float32 Sample.mz_150_25) (tolerance args) = inr im ->
  WriteImage world 0 p = None ->
  List.filter is_image_write (log (run args world f).2) = [ImageWrite p] /\
  is_Some (files (fs (run args world f).2) !! p) /\
  forallb not_xaxis (log (run args world f).2) = true.
Proof.
  cbv zeta. intros Hc Hnrrd Hex Hmk Hopen Hget Hwrite.
  assert (nrrd_path (input_path args) (out_dir args) mz32 =
          joinpath (out_dir args)
            (Path_of (stem (input_path args) +:+ "_mz_150.2500.nrrd"))) as Hp.
  { unfold nrrd_path. by rewrite fmt4_150_25. }
  rewrite <- Hp in *. clear Hp.
  unfold run, main, bind.
  destruct (resolve_explicit args world _ _ img (initial f) Hc Hex Hmk Hopen)
    as (Hr & Hfiles & _ & _ & Hsh).
  destruct (resolve_explicit_log args world _ _ (initial f) Hc)
    as (evs1 & Hl1 & Hx1 & Hw1).
  pose proof (resolve_locals args world (initial f)) as (Hd1 & _ & Hs1).
  destruct (resolve args world (initial f)) as [r1 s1]. simpl in *.
  subst r1. rewrite convert_finish. unfold bind.
  pose proof (extract_returns args world (input_path args) (out_dir args) img
                [mz32] s1) as Hret.
  rewrite extract_loop in *. simpl in *. unfold bind in *.
  set (s2 := announce args [mz32] s1) in *.
  pose proof (process_centroid_returns args world (input_path args)
                (out_dir args) img 1 0 mz32 s2) as Hret2.
  destruct (process_centroid_files args world (input_path args)
              (out_dir args) img 1 0 mz32 s2) as [Hf2 _].
  destruct (process_centroid_log args world (input_path args)
              (out_dir args) img 1 0 mz32 s2) as (evs2 & Hl2 & Hx2 & Hw2).
  assert (reaches_write args img 1 s2 0 mz32 = true) as Hreach.
  { unfold reaches_write. rewrite Hget, Hnrrd. simpl.
    apply assign_ok_fresh; subst s2; simpl; congruence. }
  unfold next_files in Hf2. rewrite Hget, Hreach, Hwrite in Hf2.
  rewrite Hreach in Hw2.
  destruct (process_centroid _ _ _ _ _ _ _ _ s2) as [r3 s3]. simpl in *.
  subst r3. unfold ret. cbv beta iota.
  destruct (finish_frame args (input_path args) (out_dir args) [mz32] s3)
    as ((evs3 & Hl3 & Hx3 & Hw3) & Hkeep).
  rewrite Hl3, Hl2. subst s2. simpl. rewrite Hl1. simpl.
  split_and!.
  - rewrite !List.filter_app, Hw1, Hw2, Hw3. done.
  - apply Hkeep. rewrite Hf2. rewrite lookup_insert_eq. by eexists.
  - rewrite !forallb_app, Hx1, Hx2, Hx3. done.
Qed.

Lemma explicit_centroid_one_file_witness :
  let args := Sample.with_centroids [Sample.mz_150_25]
                (Sample.with_flags true true false Sample.args0) in
  let world := Sample.world Sample.all_ok in
  let p := ["data"; "sample_mz_150.2500.nrrd"] in
  List.filter is_image_write (log (run args world Sample.disk).2)
    = [ImageWrite p] /\
  is_Some (files (fs (run args world Sample.disk).2) !! p) /\
  forallb not_xaxis (log (run args world Sample.disk).2) = true.
Proof.
  apply (explicit_centroid_one_file
           (Sample.with_centroids [Sample.mz_150_25]
              (Sample.with_flags true true false Sample.args0))
           (Sample.world Sample.all_ok) Sample.disk
           (Sample.reader Sample.all_ok) (Sample.image 2 2 10));
    reflexivity.
Defined.

(** C5 as stated fails: with the same arguments and a reader whose
    extraction fails, the run ends normally having written no image file at
    all; the only trace of the value is the warning. *)
Lemma no_file_when_the_extraction_fails :
  let args := Sample.with_centroids [Sample.mz_150_25]
                (Sample.with_flags true false false Sample.args0) in
  let r := run args (Sample.world Sample.all_fail) Sample.disk in
  r.1 = Return tt /\
  List.filter is_image_write (log r.2) = [] /\
  files (fs r.2) = files Sample.disk /\
  files (fs r.2) !! ["data"; "sample_mz_150.2500.nrrd"] = None /\
  List.filter is_warning (log r.2) =
    [Stderr (WarnFailed "150.2500" "no image")].
Proof. cbv zeta. split_and!; vm_compute; reflexivity. Qed.

(* ===================================================================== *)
(** * Targets with the same file name *)
(* ===================================================================== *)

Section SameName.

Variable args : Args.
Variable world : World.
Variables imzml_path output_dir : Path.
Variable img : Reader.
Variable cs : list float.

Local Abbreviation tol := (tolerance args).
Local Abbreviation n := (length cs).
Local Abbreviation body :=
  (process_centroid args world imzml_path output_dir img (length cs)).


Variables w h : nat.
Hypothesis fixed_size :
  forall k mz im, GetImage img k mz tol = inr im ->
    width im = w /\ height im = h.


Hypothesis nrrd_on : save_nrrd args = true.



End SameName.



(* ===================================================================== *)
(** * Exit status of the other runs *)
(* ===================================================================== *)



(* ===================================================================== *)
(** * The phases of a run *)
(* ===================================================================== *)

(** Events of one phase contain none of another phase's. *)
Lemma filter_other_phase ph (P : Event -> bool) evs :
  forallb (in_phase ph) evs = true ->
  (forall ev, P ev = true -> in_phase ph ev = false) ->
  List.filter P evs = [].
Proof.
  intros Hall HP. induction evs as [|ev evs IH]; [done|].
  simpl in *. apply andb_true_iff in Hall as [He Hall].
  destruct (P ev) eqn:E; [|by apply IH].
  apply HP in E. congruence.
Qed.

Section Phases.

Variable args : Args.
Variable world : World.

(** Lines 100-154: only resolving events, no file touched, and the only
    exit code is 1. *)
Lemma resolve_phase s :
  (exists evs, log (resolve args world s).2 = log s ++ evs /\
               forallb (in_phase Resolving) evs = true) /\
  files (fs (resolve args world s).2) = files (fs s) /\
  (forall c, (resolve args world s).1 = Raise (SystemExit c) -> c = 1%Z).
Proof.
  unfold resolve, validate_input, set_output_dir, load,
    determine_centroids, mkdir.
  py_unfold.
  py_cases; (split_and!; [|done|by intros ? [= <-]]);
    rewrite <- ?app_assoc; eexists;
    (split; [first [reflexivity | exact (eq_sym (app_nil_r _))]|]); done.
Qed.

(** An iteration: only extracting events, among them one request for the
    image, and no directory made. *)
Lemma process_centroid_phase ip od img n i mz s :
  exists evs,
    log (process_centroid args world ip od img n i mz s).2 = log s ++ evs /\
    forallb (in_phase Extracting) evs = true /\
    List.filter is_extraction evs = [AskImage mz (tolerance args)].
Proof.
  unfold process_centroid, try_centroid. py_unfold.
  py_cases; rewrite <- ?app_assoc; eexists; (split; [reflexivity|]); done.
Qed.

(** The loop: only extracting events; the tolerance is set once, then every
    centroid is asked for once, in the order of the list. *)
Lemma extract_phase ip od img cs s :
  exists evs,
    log (extract args world ip od img cs s).2 = log s ++ evs /\
    forallb (in_phase Extracting) evs = true /\
    List.filter is_extraction evs =
      SetTolerance (tolerance args)
      :: map (fun mz => AskImage mz (tolerance args)) cs.
Proof.
  rewrite extract_loop.
  destruct (for_enumerate_ind
              (process_centroid args world ip od img (length cs))
              (fun k s' => exists evs,
                 log s' = log s ++ evs /\
                 forallb (in_phase Extracting) evs = true /\
                 List.filter is_extraction evs =
                   SetTolerance (tolerance args)
                   :: map (fun mz => AskImage mz (tolerance args)) (take k cs))
              cs) with (s := announce args cs s) as [_ H].
  - intros. apply process_centroid_returns.
  - intros i mz s0 Hi (evs & Hl & Hp & Hf).
    destruct (process_centroid_phase ip od img (length cs) i mz s0)
      as (evs' & Hl' & Hp' & Hf').
    exists (evs ++ evs'). rewrite Hl', Hl, app_assoc. split; [done|].
    rewrite forallb_app, Hp, Hp', List.filter_app, Hf, Hf'.
    split; [done|].
    rewrite (take_S_r cs i mz Hi), map_app. done.
  - eexists. split; [reflexivity|]. by rewrite take_0.
  - by rewrite firstn_all in H.
Qed.

(** The loop makes no directory, and without [--save-nrrd] it writes no
    file. *)
Lemma extract_fs ip od img cs s :
  dirs (fs (extract args world ip od img cs s).2) = dirs (fs s) /\
  (save_nrrd args = false ->
   files (fs (extract args world ip od img cs s).2) = files (fs s)).
Proof.
  rewrite extract_loop.
  destruct (for_enumerate_ind
              (process_centroid args world ip od img (length cs))
              (fun _ s' =>
                 dirs (fs s') = dirs (fs s) /\
                 (save_nrrd args = false -> files (fs s') = files (fs s)))
              cs) with (s := announce args cs s) as [_ H]; [| | |done].
  - intros. apply process_centroid_returns.
  - intros i mz s0 _ [Hd Hf].
    destruct (process_centroid_files args world ip od img (length cs) i mz s0)
      as [Hf' Hd'].
    split; [congruence|]. intros Hn. rewrite Hf', <- (Hf Hn).
    unfold next_files, reaches_write. rewrite Hn.
    by destruct (GetImage img i mz (tolerance args)).
  - done.
Qed.

(** Lines 207-246: only finishing events, no directory made, no exit, and
    without array output no file written. *)
Lemma finish_phase ip od cs s :
  (exists evs, log (finish args ip od cs s).2 = log s ++ evs /\
               forallb (in_phase Finishing) evs = true) /\
  dirs (fs (finish args ip od cs s).2) = dirs (fs s) /\
  (forall c, (finish args ip od cs s).1 <> Raise (SystemExit c)) /\
  (wants_npy args = false ->
   files (fs (finish args ip od cs s).2) = files (fs s)).
Proof.
  unfold finish, save_arrays. py_unfold.
  py_cases; (split_and!; [|done|done|done]);
    rewrite <- ?app_assoc; eexists;
    (split; [first [reflexivity | exact (eq_sym (app_nil_r _))]|]); done.
Qed.

End Phases.

(* ===================================================================== *)
(** * The order of a run *)
(* ===================================================================== *)

(** A run whose steps 1-4 succeed: its log is the resolving events, then
    those of the loop, then those of the saving. *)
Lemma run_structure args world f ip od img cs s1 :
  resolve args world (initial f) = (Return (ip, od, img, cs), s1) ->
  exists e1 e2 e3,
    log (run args world f).2 = e1 ++ e2 ++ e3 /\
    log s1 = e1 /\
    forallb (in_phase Resolving) e1 = true /\
    forallb (in_phase Extracting) e2 = true /\
    List.filter is_extraction e2 =
      SetTolerance (tolerance args)
      :: map (fun mz => AskImage mz (tolerance args)) cs /\
    forallb (in_phase Finishing) e3 = true.
Proof.
  intros Hres.
  destruct (resolve_phase args world (initial f)) as ((e1 & Hl1 & Hp1) & _).
  rewrite Hres in Hl1. simpl in Hl1.
  destruct (extract_phase args world ip od img cs s1)
    as (e2 & Hl2 & Hp2 & Hf2).
  pose proof (extract_returns args world ip od img cs s1) as Hret.
  unfold run, main, bind. rewrite Hres, convert_finish. unfold bind.
  destruct (extract args world ip od img cs s1) as [r s2]. simpl in *.
  subst r.
  destruct (finish_phase args ip od cs s2) as ((e3 & Hl3 & Hp3) & _).
  exists e1, e2, e3. rewrite Hl3, Hl2, Hl1. by rewrite <- app_assoc.
Qed.

(** X1. The log of every run is sorted by phase: first the events of lines
    100-154 (messages, mkdir, opening, spectrum type, centroid axis), then
    those of the loop (tolerance, image requests, image writes, progress
    and warnings), then those of lines 207-246 (array and metadata saves,
    closing messages).  Nothing of an earlier phase happens after a later
    one has begun. *)
Theorem run_phases_in_order (args : Args) (world : World) (f : FS) :
  exists e1 e2 e3,
    log (run args world f).2 = e1 ++ e2 ++ e3 /\
    forallb (in_phase Resolving) e1 = true /\
    forallb (in_phase Extracting) e2 = true /\
    forallb (in_phase Finishing) e3 = true.
Proof.
  destruct (resolve args world (initial f)) as [[[[[ip od] img] cs]|e] s1]
    eqn:Hres.
  - destruct (run_structure args world f ip od img cs s1 Hres)
      as (e1 & e2 & e3 & Hl & _ & H1 & H2 & _ & H3).
    by exists e1, e2, e3.
  - destruct (resolve_phase args world (initial f)) as ((e1 & Hl1 & Hp1) & _).
    exists e1, [], []. unfold run, main, bind. rewrite Hres in *.
    simpl in *. by rewrite Hl1, app_nil_r.
Qed.

(** X2. A run that ends in [sys.exit] ends with code 1, and it does so
    before the loop: its log holds resolving events only (no tolerance set,
    no image asked for, nothing saved), and no file has been written. *)
Theorem fatal_exit_is_early (args : Args) (world : World) (f : FS) (c : Z) :
  (run args world f).1 = Raise (SystemExit c) ->
  c = 1%Z /\
  forallb (in_phase Resolving) (log (run args world f).2) = true /\
  List.filter is_extraction (log (run args world f).2) = [] /\
  files (fs (run args world f).2) = files f.
Proof.
  unfold run, main, bind.
  destruct (resolve_phase args world (initial f))
    as ((e1 & Hl1 & Hp1) & Hfiles & Hcode).
  destruct (resolve args world (initial f)) as [[[[[ip od] img] cs]|e] s1]
    eqn:Hres.
  - rewrite convert_finish. unfold bind.
    pose proof (extract_returns args world ip od img cs s1) as Hret.
    destruct (extract args world ip od img cs s1) as [r s2]. simpl in *.
    subst r. intros Hexit.
    by destruct (finish_phase args ip od cs s2) as (_ & _ & Hno & _), (Hno c).
  - simpl in *. intros [= ->]. rewrite Hl1. split_and!; try done.
    + by apply Hcode.
    + by apply (filter_other_phase Resolving); [|intros [] ?].
Qed.

Lemma fatal_exit_is_early_witness :
  let r := run Sample.args0 (sample_source "Profile" (inr [])) Sample.disk in
  1%Z = 1%Z /\
  forallb (in_phase Resolving) (log r.2) = true /\
  List.filter is_extraction (log r.2) = [] /\
  files (fs r.2) = files Sample.disk.
Proof.
  apply (fatal_exit_is_early Sample.args0 (sample_source "Profile" (inr []))
           Sample.disk 1).
  vm_compute. reflexivity.
Defined.

(** X3. Every run ends with exit status 0 or 1. *)
Theorem exit_status_0_or_1 (args : Args) (world : World) (f : FS) :
  exit_status (run args world f).1 = 0%Z \/
  exit_status (run args world f).1 = 1%Z.
Proof.
  destruct (run args world f).1 as [[]|[c|cls msg]] eqn:E; simpl; auto.
  right. destruct (resolve_phase args world (initial f)) as (_ & _ & Hcode).
  revert E. unfold run, main, bind.
  destruct (resolve args world (initial f)) as [[[[[ip od] img] cs]|e] s1]
    eqn:Hres.
  - rewrite convert_finish. unfold bind.
    pose proof (extract_returns args world ip od img cs s1) as Hret.
    destruct (extract args world ip od img cs s1) as [r s2]. simpl in *.
    subst r. intros Hexit.
    by destruct (finish_phase args ip od cs s2) as (_ & _ & Hno & _), (Hno c).
  - simpl in *. intros [= ->]. by apply Hcode.
Qed.

(* ===================================================================== *)
(** * Runs without a usable list of centroids *)
(* ===================================================================== *)


(** X4. No explicit list, an input that exists and opens, and a spectrum
    type that does not mention ["Centroid"]: the run ends with the two error
    lines and exit status 1.  The centroid axis is not asked for, no image
    is asked for and no file is written. *)
Theorem profile_source_exits (args : Args) (world : World) (f : FS)
    (img : Reader) :
  explicit_centroids args = None ->
  path_exists f (Path_of (imzml_file args)) = true ->
  mkdir_possible args f = true ->
  ImzMLReader world (Path_of (imzml_file args)) = inr img ->
  contains "Centroid" (GetSpectrumType img) = false ->
  (run args world f).1 = Raise (SystemExit 1) /\
  last_events 2 (log (run args world f).2) =
    [Stderr (ErrNotCentroid (GetSpectrumType img));
     Stderr PleaseProvideCentroids] /\
  forallb not_xaxis (log (run args world f).2) = true /\
  List.filter is_extraction (log (run args world f).2) = [] /\
  files (fs (run args world f).2) = files f.
Proof.
  intros Hc Hex Hmk Hopen Hprof. unfold_resolve. py_unfold.
  rewrite Hex. simpl.
  resolve_cases; try congruence; done.
Qed.

Lemma profile_source_exits_witness :
  let r := run Sample.args0
             (sample_source "Profile" (inr [Sample.mz 100])) Sample.disk in
  r.1 = Raise (SystemExit 1) /\
  last_events 2 (log r.2) =
    [Stderr (ErrNotCentroid "Profile"); Stderr PleaseProvideCentroids] /\
  forallb not_xaxis (log r.2) = true /\
  List.filter is_extraction (log r.2) = [] /\
  files (fs r.2) = files Sample.disk.
Proof.
  apply (profile_source_exits Sample.args0
           (sample_source "Profile" (inr [Sample.mz 100])) Sample.disk
           {| GetSpectrumType := "Profile";
              GetXAxis := inr [Sample.mz 100];
              GetImage := fun k _ _ => Sample.all_ok k |});
    reflexivity.
Defined.

(** X5. No explicit list and a centroid source whose centroid axis cannot
    be read: the run ends with the two error lines, the first carrying the
    reader's message, and exit status 1; no image is asked for and no file
    is written. *)
Theorem xaxis_failure_exits (args : Args) (world : World) (f : FS)
    (img : Reader) (e : string) :
  explicit_centroids args = None ->
  path_exists f (Path_of (imzml_file args)) = true ->
  mkdir_possible args f = true ->
  ImzMLReader world (Path_of (imzml_file args)) = inr img ->
  contains "Centroid" (GetSpectrumType img) = true ->
  GetXAxis img = inl e ->
  (run args world f).1 = Raise (SystemExit 1) /\
  last_events 3 (log (run args world f).2) =
    [AskXAxis; Stderr (ErrExtractingCentroids e);
     Stderr PleaseProvideCentroids] /\
  List.filter is_extraction (log (run args world f).2) = [] /\
  files (fs (run args world f).2) = files f.
Proof.
  intros Hc Hex Hmk Hopen Hcent Hx. unfold_resolve. py_unfold.
  rewrite Hex. simpl.
  resolve_cases; try congruence; done.
Qed.

Lemma xaxis_failure_exits_witness :
  let r := run Sample.args0
             (sample_source "Centroid" (inl "no axis")) Sample.disk in
  r.1 = Raise (SystemExit 1) /\
  last_events 3 (log r.2) =
    [AskXAxis; Stderr (ErrExtractingCentroids "no axis");
     Stderr PleaseProvideCentroids] /\
  List.filter is_extraction (log r.2) = [] /\
  files (fs r.2) = files Sample.disk.
Proof.
  apply (xaxis_failure_exits Sample.args0
           (sample_source "Centroid" (inl "no axis")) Sample.disk
           {| GetSpectrumType := "Centroid";
              GetXAxis := inl "no axis";
              GetImage := fun k _ _ => Sample.all_ok k |} "no axis");
    reflexivity.
Defined.

(** X6. No explicit list and a centroid source whose centroid axis is
    empty: the run reports zero centroids, prints the error line and exits
    with status 1 before the tolerance is set; no image is asked for and no
    file is written. *)
Theorem empty_centroid_list_exits (args : Args) (world : World) (f : FS)
    (img : Reader) :
  explicit_centroids args = None ->
  path_exists f (Path_of (imzml_file args)) = true ->
  mkdir_possible args f = true ->
  ImzMLReader world (Path_of (imzml_file args)) = inr img ->
  contains "Centroid" (GetSpectrumType img) = true ->
  GetXAxis img = inr [] ->
  (run args world f).1 = Raise (SystemExit 1) /\
  last_events 3 (log (run args world f).2) =
    [AskXAxis; Stdout (UsingFileCentroids 0); Stderr ErrNoCentroids] /\
  List.filter is_extraction (log (run args world f).2) = [] /\
  files (fs (run args world f).2) = files f.
Proof.
  intros Hc Hex Hmk Hopen Hcent Hx. unfold_resolve. py_unfold.
  rewrite Hex. simpl.
  resolve_cases; try congruence; done.
Qed.

Lemma empty_centroid_list_exits_witness :
  let r := run Sample.args0 (sample_source "Centroid" (inr [])) Sample.disk in
  r.1 = Raise (SystemExit 1) /\
  last_events 3 (log r.2) =
    [AskXAxis; Stdout (UsingFileCentroids 0); Stderr ErrNoCentroids] /\
  List.filter is_extraction (log r.2) = [] /\
  files (fs r.2) = files Sample.disk.
Proof.
  apply (empty_centroid_list_exits Sample.args0
           (sample_source "Centroid" (inr [])) Sample.disk
           {| GetSpectrumType := "Centroid";
              GetXAxis := inr [];
              GetImage := fun k _ _ => Sample.all_ok k |});
    reflexivity.
Defined.

(* ===================================================================== *)
(** * The order of the extraction *)
(* ===================================================================== *)

(** Once steps 1-4 have resolved the list [cs], the reader is configured
    once and then asked for every centroid of [cs], in order. *)
Lemma run_extraction_events args world f ip od img cs s1 :
  resolve args world (initial f) = (Return (ip, od, img, cs), s1) ->
  List.filter is_extraction (log (run args world f).2) =
    SetTolerance (tolerance args)
    :: map (fun mz => AskImage mz (tolerance args)) cs.
Proof.
  intros Hres.
  destruct (run_structure args world f ip od img cs s1 Hres)
    as (e1 & e2 & e3 & -> & _ & H1 & H2 & Hf & H3).
  rewrite !List.filter_app, Hf.
  rewrite (filter_other_phase Resolving is_extraction e1 H1) by by intros [].
  rewrite (filter_other_phase Finishing is_extraction e3 H3) by by intros [].
  by rewrite app_nil_r.
Qed.

(** With no explicit list and a centroid source, lines 100-154 return the
    source's centroid axis as it is. *)
Lemma resolve_file_centroids args world img cs s :
  explicit_centroids args = None ->
  path_exists (fs s) (Path_of (imzml_file args)) = true ->
  mkdir_possible args (fs s) = true ->
  ImzMLReader world (Path_of (imzml_file args)) = inr img ->
  contains "Centroid" (GetSpectrumType img) = true ->
  GetXAxis img = inr cs -> cs <> [] ->
  (resolve args world s).1 =
    Return (Path_of (imzml_file args),
            resolved_output_dir args (Path_of (imzml_file args)), img, cs).
Proof.
  intros Hc Hex Hmk Hopen Hcent Hx Hne.
  unfold_resolve. unfold resolved_output_dir. py_unfold.
  rewrite Hex. simpl.
  resolve_cases; try congruence; try done.
  all: match goal with
       | H : (length ?l =? 0) = true, H' : ?l <> [] |- _ => by destruct l
       end.
Qed.

(** X7. With an explicit list, an input that exists and a reader that opens
    it, the tolerance is set once, before any extraction, and then every
    value of the list, cast to float32, is asked for exactly once, in the
    order given and with that tolerance, whether or not the extractions
    succeed. *)
Theorem explicit_centroids_in_order (args : Args) (world : World) (f : FS)
    (img : Reader) (c : float) (l : list float) :
  centroids args = Some (c :: l) ->
  path_exists f (Path_of (imzml_file args)) = true ->
  mkdir_possible args f = true ->
  ImzMLReader world (Path_of (imzml_file args)) = inr img ->
  List.filter is_extraction (log (run args world f).2) =
    SetTolerance (tolerance args)
    :: map (fun mz => AskImage (to_float32 mz) (tolerance args)) (c :: l).
Proof.
  intros Hc Hex Hmk Hopen.
  destruct (resolve_explicit args world c l img (initial f) Hc Hex Hmk Hopen)
    as (Hr & _).
  destruct (resolve args world (initial f)) as [r s1] eqn:Hres.
  simpl in Hr. subst r.
  rewrite (run_extraction_events _ _ _ _ _ _ _ _ Hres).
  simpl. by rewrite map_map.
Qed.

Lemma explicit_centroids_in_order_witness :
  let args := Sample.with_centroids
                [Sample.mz 300; Sample.mz_150_25; Sample.mz 300]
                Sample.args0 in
  List.filter is_extraction
    (log (run args (Sample.world Sample.first_fails) Sample.disk).2) =
    SetTolerance (tolerance args)
    :: map (fun mz => AskImage (to_float32 mz) (tolerance args))
         [Sample.mz 300; Sample.mz_150_25; Sample.mz 300].
Proof.
  apply (explicit_centroids_in_order
           (Sample.with_centroids
              [Sample.mz 300; Sample.mz_150_25; Sample.mz 300] Sample.args0)
           (Sample.world Sample.first_fails) Sample.disk
           (Sample.reader Sample.first_fails));
    reflexivity.
Defined.

(** X8. With no explicit list and a centroid source whose centroid axis is
    not empty, the tolerance is set once and then every centroid of the
    axis is asked for exactly once, in the order of the axis and as it is
    (no cast), whether or not the extractions succeed. *)
Theorem file_centroids_in_order (args : Args) (world : World) (f : FS)
    (img : Reader) (cs : list float) :
  explicit_centroids args = None ->
  path_exists f (Path_of (imzml_file args)) = true ->
  mkdir_possible args f = true ->
  ImzMLReader world (Path_of (imzml_file args)) = inr img ->
  contains "Centroid" (GetSpectrumType img) = true ->
  GetXAxis img = inr cs -> cs <> [] ->
  List.filter is_extraction (log (run args world f).2) =
    SetTolerance (tolerance args)
    :: map (fun mz => AskImage mz (tolerance args)) cs.
Proof.
  intros Hc Hex Hmk Hopen Hcent Hx Hne.
  pose proof (resolve_file_centroids args world img cs (initial f)
                Hc Hex Hmk Hopen Hcent Hx Hne) as Hr.
  destruct (resolve args world (initial f)) as [r s1] eqn:Hres.
  simpl in Hr. subst r.
  by rewrite (run_extraction_events _ _ _ _ _ _ _ _ Hres).
Qed.

Lemma file_centroids_in_order_witness :
  List.filter is_extraction
    (log (run Sample.args0 (Sample.world Sample.first_fails) Sample.disk).2) =
    SetTolerance (tolerance Sample.args0)
    :: map (fun mz => AskImage mz (tolerance Sample.args0))
         [Sample.mz 100; Sample.mz 200].
Proof.
  apply (file_centroids_in_order Sample.args0
           (Sample.world Sample.first_fails) Sample.disk
           (Sample.reader Sample.first_fails)
           [Sample.mz 100; Sample.mz 200]); done.
Defined.

(* ===================================================================== *)
(** * When a run ends normally *)
(* ===================================================================== *)




(* ===================================================================== *)
(** * The metadata file *)
(* ===================================================================== *)

(** When lines 207-246 return with array output requested, there was an
    accumulator, and the metadata file holds the list, the tolerance, the
    image size and the source name. *)
Lemma finish_metadata args ip od cs s :
  wants_npy args = true ->
  (finish args ip od cs s).1 = Return tt ->
  is_Some (data_matrix_3d s) /\
  data_matrix_3d (finish args ip od cs s).2 = data_matrix_3d s /\
  files (fs (finish args ip od cs s).2) !! metadata_file args ip od =
    Some (NpzFile cs (tolerance args)
            (match image_shape s with Some sh => sh.1 | None => 0 end)
            (match image_shape s with Some sh => sh.2 | None => 0 end)
            (name ip)).
Proof.
  intros Hw. unfold finish, save_arrays, metadata_file, npy_base.
  py_unfold. rewrite Hw. simpl. unfold wants_npy in Hw. revert Hw.
  py_cases; intros; simplify_eq;
    (split_and!; [by eexists|done|apply lookup_insert_eq]).
Qed.

(** X10. When a run with array output ends normally, the metadata file
    agrees with the accumulator: for an accumulator of shape [(H, W, n)]
    it records the height [H], the width [W] and the [n] resolved m/z
    values, in the order of the list, with the tolerance and the name of
    the source file. *)
Theorem metadata_matches_accumulator (args : Args) (world : World) (f : FS)
    (imzml_path output_dir : Path) (img : Reader) (cs : list float)
    (s1 : State) :
  resolve args world (initial f)
    = (Return (imzml_path, output_dir, img, cs), s1) ->
  wants_npy args = true ->
  (run args world f).1 = Return tt ->
  exists a W H,
    data_matrix_3d (run args world f).2 = Some a /\
    shape3 a = (H, W, length cs) /\
    files (fs (run args world f).2)
      !! metadata_file args imzml_path output_dir =
      Some (NpzFile cs (tolerance args) W H (name imzml_path)).
Proof.
  intros Hres Hw.
  pose proof (resolve_locals args world (initial f)) as (H3 & _ & Hsh).
  rewrite Hres in H3, Hsh. simpl in H3, Hsh.
  unfold run, main, bind. rewrite Hres, convert_finish. unfold bind.
  pose proof (extract_returns args world imzml_path output_dir img cs s1)
    as Hret.
  destruct (extract_acc_inv args world imzml_path output_dir img cs s1
              H3 Hsh) as [_ Hinv].
  destruct (extract args world imzml_path output_dir img cs s1) as [r s2].
  simpl in *. subst r. intros Hend.
  destruct (finish_metadata args imzml_path output_dir cs s2 Hw Hend)
    as ([a Ha] & Hd & Hmeta).
  unfold acc_inv in Hinv. rewrite Ha in Hinv.
  destruct (image_shape s2) as [[W H]|]; [|done].
  destruct Hinv as (Hs & _).
  exists a, W, H. rewrite Hd, Ha. done.
Qed.

Lemma metadata_matches_accumulator_witness :
  let args := Sample.with_flags false true false Sample.args0 in
  let r := run args (Sample.world Sample.first_fails) Sample.disk in
  exists a W H,
    data_matrix_3d r.2 = Some a /\
    shape3 a = (H, W, 2) /\
    files (fs r.2) !! metadata_file args ["data"; "sample.imzML"] ["data"] =
      Some (NpzFile [Sample.mz 100; Sample.mz 200] (tolerance args) W H
              (name ["data"; "sample.imzML"])).
Proof.
  apply (metadata_matches_accumulator
           (Sample.with_flags false true false Sample.args0)
           (Sample.world Sample.first_fails) Sample.disk
           ["data"; "sample.imzML"] ["data"]
           (Sample.reader Sample.first_fails)
           [Sample.mz 100; Sample.mz 200]
           (resolve (Sample.with_flags false true false Sample.args0)
              (Sample.world Sample.first_fails) (initial Sample.disk)).2);
    [reflexivity | reflexivity | vm_compute; reflexivity].
Defined.

(* ===================================================================== *)
(** * What a run leaves on disk *)
(* ===================================================================== *)

(** Lines 100-154 make the directories of [made_dirs] and no other. *)
Lemma resolve_dirs args world s :
  dirs (fs (resolve args world s).2) = dirs (fs s) ∪ made_dirs args (fs s).
Proof.
  unfold made_dirs.
  destruct (path_exists (fs s) (Path_of (imzml_file args))) eqn:Hex;
    destruct (truthy_str (output_dir args)) as [d|] eqn:Hd;
    try destruct (existsb (is_file (fs s)) (ancestors (Path_of d))) eqn:Hfile;
    unfold resolve, validate_input, set_output_dir, load,
      determine_centroids, mkdir;
    py_unfold; rewrite ?Hex, ?Hd; simpl; rewrite ?Hfile; simpl;
    py_cases; try congruence; by rewrite ?union_empty_r_L.
Qed.

(** X11. The only directories a run makes are those of [--output-dir], the
    directory and its ancestors, and it makes them only when the input
    exists and no file is in the way; without [--output-dir] no directory
    is made.  This holds for every run, however it ends. *)
Theorem directories_made (args : Args) (world : World) (f : FS) :
  dirs (fs (run args world f).2) = dirs f ∪ made_dirs args f.
Proof.
  pose proof (resolve_dirs args world (initial f)) as Hd. simpl in Hd.
  unfold run, main, bind.
  destruct (resolve args world (initial f)) as [[[[[ip od] img] cs]|e] s1];
    [|done].
  rewrite convert_finish. unfold bind.
  pose proof (extract_returns args world ip od img cs s1) as Hret.
  destruct (extract_fs args world ip od img cs s1) as [Hd2 _].
  destruct (extract args world ip od img cs s1) as [r s2]. simpl in *.
  subst r.
  destruct (finish_phase args ip od cs s2) as (_ & Hd3 & _).
  congruence.
Qed.

(** X12. A run with none of [--save-nrrd], [--save-npy-spatial] and
    [--save-npy-list] writes no file, however it ends: the files on disk
    are those it found. *)
Theorem no_output_flag_no_file (args : Args) (world : World) (f : FS) :
  save_nrrd args = false ->
  save_npy_spatial args = false ->
  save_npy_list args = false ->
  files (fs (run args world f).2) = files f.
Proof.
  intros Hn Hs Hl.
  assert (wants_npy args = false) as Hw by (unfold wants_npy; by rewrite Hs, Hl).
  destruct (resolve_phase args world (initial f)) as (_ & Hf1 & _).
  simpl in Hf1.
  unfold run, main, bind.
  destruct (resolve args world (initial f)) as [[[[[ip od] img] cs]|e] s1];
    [|done].
  rewrite convert_finish. unfold bind.
  pose proof (extract_returns args world ip od img cs s1) as Hret.
  destruct (extract_fs args world ip od img cs s1) as [_ Hf2].
  destruct (extract args world ip od img cs s1) as [r s2]. simpl in *.
  subst r.
  destruct (finish_phase args ip od cs s2) as (_ & _ & _ & Hf3).
  rewrite (Hf3 Hw), (Hf2 Hn). done.
Qed.

Lemma no_output_flag_no_file_witness :
  files (fs (run Sample.args0 (Sample.world Sample.all_ok) Sample.disk).2)
    = files Sample.disk.
Proof.
  apply (no_output_flag_no_file Sample.args0 (Sample.world Sample.all_ok)
           Sample.disk); reflexivity.
Defined.

(* ===================================================================== *)
(** * The extension of the input *)
(* ===================================================================== *)

Lemma resolve_extension_warning args world s :
  exists evs,
    log (resolve args world s).2 = log s ++ evs /\
    List.filter is_extension_warning evs =
      if path_exists (fs s) (Path_of (imzml_file args)) &&
         negb (String.eqb (lower (suffix (Path_of (imzml_file args))))
                 ".imzml")
      then [Stderr WarnExtension] else [].
Proof.
  destruct (path_exists (fs s) (Path_of (imzml_file args))) eqn:Hex;
    destruct (String.eqb (lower (suffix (Path_of (imzml_file args))))
                ".imzml") eqn:Hext;
    unfold resolve, validate_input, set_output_dir, load,
      determine_centroids, mkdir;
    py_unfold; rewrite ?Hex, ?Hext; simpl;
    py_cases; rewrite <- ?app_assoc; eexists;
    (split; [first [reflexivity | exact (eq_sym (app_nil_r _))]|]); done.
Qed.

(** X13. The extension warning is printed exactly once when the input
    exists and its suffix, lowercased, is not [.imzml], and not at all
    otherwise; a missing input is reported without it. *)
Theorem extension_warning_iff (args : Args) (world : World) (f : FS) :
  List.filter is_extension_warning (log (run args world f).2) =
    if path_exists f (Path_of (imzml_file args)) &&
       negb (String.eqb (lower (suffix (Path_of (imzml_file args))))
               ".imzml")
    then [Stderr WarnExtension] else [].
Proof.
  destruct (resolve_extension_warning args world (initial f))
    as (evs & Hl & Hf). simpl in Hl, Hf.
  destruct (resolve args world (initial f)) as [[[[[ip od] img] cs]|e] s1]
    eqn:Hres.
  - destruct (run_structure args world f ip od img cs s1 Hres)
      as (e1 & e2 & e3 & -> & He1 & _ & H2 & _ & H3).
    simpl in Hl. rewrite <- He1, Hl, !List.filter_app, Hf.
    rewrite (filter_other_phase Extracting is_extension_warning e2 H2)
      by (intros [m|m| | | | | | | | |] ?; try done; by destruct m).
    rewrite (filter_other_phase Finishing is_extension_warning e3 H3)
      by (intros [m|m| | | | | | | | |] ?; try done; by destruct m).
    by rewrite !app_nil_r.
  - unfold run, main, bind. rewrite Hres. simpl in *. by rewrite Hl.
Qed.

(* ===================================================================== *)
(** * One item, step by step *)
(* ===================================================================== *)

(** The last events of a log that ends with [tl]. *)
Lemma last_events_app pre tl :
  last_events (length tl) (pre ++ tl) = tl.
Proof.
  unfold last_events. rewrite rev_app_distr.
  rewrite take_app_length' by (by rewrite length_rev).
  apply rev_involutive.
Qed.

Lemma last_two_events pre a b :
  last_events 2 ((pre ++ [a]) ++ [b]) = [a; b].
Proof. rewrite <- app_assoc. apply (last_events_app pre [a; b]). Qed.

(** X14. When the image of an item comes back and is assigned to the
    accumulator but its write fails, the iteration still carries on: the
    slice stays filled, no file appears, and the item ends with the warning
    that carries the writer's message, without a progress line. *)
Theorem write_failure_keeps_slice (args : Args) (world : World)
    (imzml_path output_dir : Path) (img : Reader) (n i : nat) (mz : float)
    (s : State) (im : Image) (a a' : Array3) (err : string) :
  save_nrrd args = true ->
  GetImage img i mz (tolerance args) = inr im ->
  cur_matrix args n s im = Some a ->
  set_slice a i (Cast_Float32 im) = Some a' ->
  WriteImage world i (nrrd_path imzml_path output_dir mz) = Some err ->
  let r := process_centroid args world imzml_path output_dir img n i mz s in
  r.1 = Return tt /\
  data_matrix_3d r.2 = Some a' /\
  files (fs r.2) = files (fs s) /\
  last_events 2 (log r.2) =
    [ImageWrite (nrrd_path imzml_path output_dir mz);
     Stderr (WarnFailed (fmt4 mz) err)] /\
  List.filter is_progress (log r.2) = List.filter is_progress (log s).
Proof.
  intros Hn Hget Hcur Hset Hw. cbv zeta.
  split; [apply process_centroid_returns|].
  destruct (process_centroid_locals args world imzml_path output_dir img n
              i mz s) as (_ & Hm & _).
  destruct (process_centroid_files args world imzml_path output_dir img n
              i mz s) as (Hf & _).
  split.
  { rewrite Hm. unfold next_matrix. rewrite Hget.
    unfold cur_matrix in Hcur. by rewrite Hcur, Hset. }
  split.
  { rewrite Hf. unfold next_files, reaches_write, assign_ok.
    by rewrite Hget, Hn, Hcur, Hset, Hw. }
  clear Hm Hf. revert Hcur. unfold cur_matrix.
  unfold process_centroid, try_centroid. py_unfold.
  rewrite Hget. simpl.
  destruct (wants_npy args && bool_decide (image_shape s = None)); simpl;
    intros Hcur; simplify_eq; rewrite ?Hcur, Hset; simpl;
    rewrite Hn; simpl; rewrite Hw; simpl;
    (split;
     [rewrite ?app_assoc; apply last_two_events
     |rewrite !List.filter_app; simpl; by rewrite ?app_nil_r]).
Qed.

Lemma write_failure_keeps_slice_witness :
  exists a',
    set_slice (zeros 2 2 1) 0 (Cast_Float32 (Sample.image 2 2 10)) = Some a' /\
    let args := Sample.with_flags true true false Sample.args0 in
    let r := process_centroid args read_only_world ["data"; "sample.imzML"]
               ["data"] (Sample.reader Sample.all_ok) 1 0 (Sample.mz 100)
               (initial Sample.disk) in
    r.1 = Return tt /\
    data_matrix_3d r.2 = Some a' /\
    files (fs r.2) = files (fs (initial Sample.disk)) /\
    last_events 2 (log r.2) =
      [ImageWrite (nrrd_path ["data"; "sample.imzML"] ["data"] (Sample.mz 100));
       Stderr (WarnFailed (fmt4 (Sample.mz 100)) "cannot write")] /\
    List.filter is_progress (log r.2) =
      List.filter is_progress (log (initial Sample.disk)).
Proof.
  eexists. split; [vm_compute; reflexivity|].
  apply (write_failure_keeps_slice
           (Sample.with_flags true true false Sample.args0) read_only_world
           ["data"; "sample.imzML"] ["data"] (Sample.reader Sample.all_ok)
           1 0 (Sample.mz 100) (initial Sample.disk) (Sample.image 2 2 10)
           (zeros 2 2 1));
    [reflexivity | reflexivity | reflexivity | vm_compute; reflexivity
    | reflexivity].
Defined.

(** X15. When the image of an item comes back, is assigned (or no array is
    asked for) and is written, the iteration leaves exactly one more file,
    at the item's own path: the image cast to float32, with the m/z value,
    the tolerance and the name of the source file attached. *)
Theorem written_image_file (args : Args) (world : World)
    (imzml_path output_dir : Path) (img : Reader) (n i : nat) (mz : float)
    (s : State) (im : Image) :
  save_nrrd args = true ->
  GetImage img i mz (tolerance args) = inr im ->
  assign_ok args n s i im = true ->
  WriteImage world i (nrrd_path imzml_path output_dir mz) = None ->
  let r := process_centroid args world imzml_path output_dir img n i mz s in
  r.1 = Return tt /\
  files (fs r.2) =
    <[nrrd_path imzml_path output_dir mz :=
        NrrdFile (Cast_Float32 im) mz (tolerance args) (name imzml_path)]>
      (files (fs s)) /\
  dirs (fs r.2) = dirs (fs s).
Proof.
  intros Hn Hget Hok Hw. cbv zeta.
  split; [apply process_centroid_returns|].
  destruct (process_centroid_files args world imzml_path output_dir img n
              i mz s) as (Hf & Hd).
  split; [|done].
  rewrite Hf. unfold next_files, reaches_write.
  by rewrite Hget, Hn, Hok, Hw.
Qed.

Lemma written_image_file_witness :
  let args := Sample.with_flags true false false Sample.args0 in
  let r := process_centroid args (Sample.world Sample.all_ok)
             ["data"; "sample.imzML"] ["data"] (Sample.reader Sample.all_ok)
             2 1 (Sample.mz 200) (initial Sample.disk) in
  r.1 = Return tt /\
  files (fs r.2) =
    <[nrrd_path ["data"; "sample.imzML"] ["data"] (Sample.mz 200) :=
        NrrdFile (Cast_Float32 (Sample.image 2 2 20)) (Sample.mz 200)
          (tolerance args) (name ["data"; "sample.imzML"])]>
      (files (fs (initial Sample.disk))) /\
  dirs (fs r.2) = dirs (fs (initial Sample.disk)).
Proof.
  apply (written_image_file
           (Sample.with_flags true false false Sample.args0)
           (Sample.world Sample.all_ok) ["data"; "sample.imzML"] ["data"]
           (Sample.reader Sample.all_ok) 2 1 (Sample.mz 200)
           (initial Sample.disk) (Sample.image 2 2 20)); reflexivity.
Defined.

(* ===================================================================== *)
(** * Image writes *)
(* ===================================================================== *)

(** The image writes the loop attempts follow the list: at most one per
    centroid, at the centroid's path, in the order of the list; and none
    without [--save-nrrd]. *)
Lemma extract_image_writes args world ip od img cs s :
  exists evs,
    log (extract args world ip od img cs s).2 = log s ++ evs /\
    sublist (List.filter is_image_write evs)
      (map (fun mz => ImageWrite (nrrd_path ip od mz)) cs) /\
    (save_nrrd args = false -> List.filter is_image_write evs = []).
Proof.
  rewrite extract_loop.
  destruct (for_enumerate_ind
              (process_centroid args world ip od img (length cs))
              (fun k s' => exists evs,
                 log s' = log s ++ evs /\
                 sublist (List.filter is_image_write evs)
                   (map (fun mz => ImageWrite (nrrd_path ip od mz))
                      (take k cs)) /\
                 (save_nrrd args = false ->
                  List.filter is_image_write evs = []))
              cs) with (s := announce args cs s) as [_ H].
  - intros. apply process_centroid_returns.
  - intros i mz s0 Hi (evs & Hl & Hsub & Hoff).
    destruct (process_centroid_log args world ip od img (length cs) i mz s0)
      as (evs' & Hl' & _ & Hf').
    exists (evs ++ evs'). rewrite Hl', Hl, app_assoc. split; [done|].
    rewrite List.filter_app, Hf', (take_S_r cs i mz Hi), map_app.
    split.
    + apply sublist_app; [done|].
      destruct (reaches_write _ _ _ _ _ _); [done|apply sublist_nil_l].
    + intros Hn. rewrite (Hoff Hn). unfold reaches_write. rewrite Hn.
      by destruct (GetImage img i mz (tolerance args)).
  - eexists. split; [reflexivity|]. rewrite take_0. simpl.
    split; [apply sublist_nil_l|done].
  - by rewrite firstn_all in H.
Qed.

(** X16. In a run whose steps 1-4 resolve the list [cs], the image writes
    attempted are a sublist of the list of the centroids' own paths, in the
    order of [cs]: at most one write per centroid, none to any other
    path. *)
Theorem image_writes_follow_the_list (args : Args) (world : World) (f : FS)
    (imzml_path output_dir : Path) (img : Reader) (cs : list float)
    (s1 : State) :
  resolve args world (initial f)
    = (Return (imzml_path, output_dir, img, cs), s1) ->
  sublist (List.filter is_image_write (log (run args world f).2))
    (map (fun mz => ImageWrite (nrrd_path imzml_path output_dir mz)) cs).
Proof.
  intros Hres.
  destruct (resolve_phase args world (initial f)) as ((e1 & Hl1 & Hp1) & _).
  rewrite Hres in Hl1. simpl in Hl1.
  destruct (extract_image_writes args world imzml_path output_dir img cs s1)
    as (e2 & Hl2 & Hsub & _).
  pose proof (extract_returns args world imzml_path output_dir img cs s1)
    as Hret.
  unfold run, main, bind. rewrite Hres, convert_finish. unfold bind.
  destruct (extract args world imzml_path output_dir img cs s1) as [r s2].
  simpl in *. subst r.
  destruct (finish_phase args imzml_path output_dir cs s2)
    as ((e3 & Hl3 & Hp3) & _).
  rewrite Hl3, Hl2, Hl1, !List.filter_app.
  rewrite (filter_other_phase Resolving is_image_write e1 Hp1)
    by by intros [].
  rewrite (filter_other_phase Finishing is_image_write e3 Hp3)
    by by intros [].
  by rewrite app_nil_r.
Qed.

Lemma image_writes_follow_the_list_witness :
  let args := Sample.with_flags true false false Sample.args0 in
  sublist
    (List.filter is_image_write
       (log (run args (Sample.world Sample.first_fails) Sample.disk).2))
    (map (fun mz => ImageWrite (nrrd_path ["data"; "sample.imzML"] ["data"] mz))
       [Sample.mz 100; Sample.mz 200]).
Proof.
  apply (image_writes_follow_the_list
           (Sample.with_flags true false false Sample.args0)
           (Sample.world Sample.first_fails) Sample.disk
           ["data"; "sample.imzML"] ["data"]
           (Sample.reader Sample.first_fails)
           [Sample.mz 100; Sample.mz 200]
           (resolve (Sample.with_flags true false false Sample.args0)
              (Sample.world Sample.first_fails) (initial Sample.disk)).2).
  reflexivity.
Defined.

(* ===================================================================== *)
(** * The names of the array files *)
(* ===================================================================== *)

Section FileNames.

Lemma string_length_app (a b : string) :
  String.length (a +:+ b) = String.length a + String.length b.
Proof. induction a as [|c a IH]; simpl; [done|by rewrite IH]. Qed.

Lemma split_on_no_sep t :
  forallb (fun c => negb (Ascii.eqb c "/")) (list_ascii_of_string t) = true ->
  split_on "/" t = [t].
Proof.
  induction t as [|c t IH]; simpl; [done|].
  intros [Hc Ht]%andb_true_iff. apply negb_true_iff in Hc.
  by rewrite Hc, (IH Ht).
Qed.

(** Splitting a string with an ending appended: the ending joins the last
    component. *)
Lemma split_on_ending S :
  exists init L,
    split_on "/" S = init ++ [L] /\
    forall t, split_on "/" t = [t] ->
      split_on "/" (S +:+ t) = init ++ [L +:+ t].
Proof.
  induction S as [|c S (init & L & HS & Ht)].
  - exists [], "". split; [done|]. intros t Ht. exact Ht.
  - simpl. rewrite HS. destruct (Ascii.eqb c "/") eqn:Ec.
    + exists ("" :: init), L. split; [done|].
      intros t Ht'. by rewrite (Ht t Ht').
    + destruct init as [|x xs].
      * exists [], (String c L). split; [done|].
        intros t Ht'. by rewrite (Ht t Ht').
      * exists (String c x :: xs), L. split; [done|].
        intros t Ht'. by rewrite (Ht t Ht').
Qed.

Lemma is_component_long x : 2 <= String.length x -> is_component x = true.
Proof.
  destruct x as [|a [|b x]]; simpl; try lia. intros _.
  unfold is_component. simpl. by destruct (Ascii.eqb a ".").
Qed.

Lemma not_root_long x : 2 <= String.length x -> String.eqb x "/" = false.
Proof.
  destruct x as [|a [|b x]]; simpl; try lia. intros _.
  by destruct (Ascii.eqb a "/").
Qed.

Lemma Path_of_root s :
  Path_of s =
    if starts_with_slash s
    then "/" :: List.filter is_component (split_on "/" s)
    else List.filter is_component (split_on "/" s).
Proof.
  unfold Path_of. destruct s as [|c s]; [done|].
  destruct c as [[] [] [] [] [] [] [] []]; reflexivity.
Qed.

Lemma good_ending_facts t :
  good_ending t = true ->
  split_on "/" t = [t] /\ 2 <= String.length t /\ starts_with_slash t = false.
Proof.
  unfold good_ending. intros [Hs Hl]%andb_true_iff.
  apply Nat.leb_le in Hl. split_and!; [by apply split_on_no_sep|done|].
  destruct t as [|c t]; [done|]. simpl in *.
  apply andb_true_iff in Hs as [Hc _]. by apply negb_true_iff in Hc.
Qed.

(** A name with an ending appended parses to a directory that does not
    depend on the ending, followed by one component that ends with it. *)
Lemma Path_of_ending S :
  exists pre L, forall t, good_ending t = true ->
    Path_of (S +:+ t) = pre ++ [L +:+ t].
Proof.
  destruct (split_on_ending S) as (init & L & HS & Ht).
  exists ((if starts_with_slash S then ["/"] else [])
          ++ List.filter is_component init), L.
  intros t (Hsplit & Hlen & Hstart)%good_ending_facts.
  rewrite Path_of_root, (Ht t Hsplit), List.filter_app. simpl.
  rewrite is_component_long by (rewrite string_length_app; lia).
  destruct S as [|c S].
  - change ("" +:+ t) with t. by rewrite Hstart.
  - change (starts_with_slash (String c S +:+ t)) with (Ascii.eqb c "/").
    simpl. by destruct (Ascii.eqb c "/").
Qed.

Lemma joinpath_ending P S :
  exists dir L, forall t, good_ending t = true ->
    joinpath P (Path_of (S +:+ t)) = dir ++ [L +:+ t].
Proof.
  destruct (Path_of_ending S) as (pre & L & Hpre).
  destruct pre as [|r pre].
  - exists P, L. intros t Ht. rewrite (Hpre t Ht). unfold joinpath. simpl.
    apply good_ending_facts in Ht as (_ & Hlen & _).
    by rewrite not_root_long by (rewrite string_length_app; lia).
  - exists (if String.eqb r "/" then r :: pre else P ++ r :: pre), L.
    intros t Ht. rewrite (Hpre t Ht). unfold joinpath. simpl.
    destruct (String.eqb r "/"); [done|]. by rewrite <- app_assoc.
Qed.

End FileNames.

Lemma npy_file_inj args ip od t1 t2 :
  good_ending t1 = true -> good_ending t2 = true -> t1 <> t2 ->
  npy_file args ip od t1 <> npy_file args ip od t2.
Proof.
  unfold npy_file.
  destruct (joinpath_ending (parent (npy_base args ip od))
              (stem (npy_base args ip od))) as (dir & L & H).
  intros H1 H2 Hne. rewrite (H t1 H1), (H t2 H2).
  intros [_ E]%app_inj_tail. by apply String.app_inj in E.
Qed.

(** When lines 207-246 return with both array outputs requested, the three
    files are there, each with its own content. *)
Lemma finish_arrays args ip od cs s :
  save_npy_spatial args = true -> save_npy_list args = true ->
  (finish args ip od cs s).1 = Return tt ->
  exists a m2,
    data_matrix_3d s = Some a /\
    reshape a (length cs) = Some m2 /\
    files (fs (finish args ip od cs s).2)
      !! npy_file args ip od "_spatial.npy" = Some (NpyFile3 (Some a)) /\
    files (fs (finish args ip od cs s).2)
      !! npy_file args ip od "_list.npy" = Some (NpyFile2 m2).
Proof.
  intros Hsp Hli.
  assert (npy_file args ip od "_list.npy"
            <> npy_file args ip od "_spatial.npy") as N1
    by (by apply npy_file_inj).
  assert (npy_file args ip od "_metadata.npz"
            <> npy_file args ip od "_spatial.npy") as N2
    by (by apply npy_file_inj).
  assert (npy_file args ip od "_metadata.npz"
            <> npy_file args ip od "_list.npy") as N3
    by (by apply npy_file_inj).
  revert N1 N2 N3.
  unfold finish, save_arrays, wants_npy, npy_file, npy_base.
  py_unfold. rewrite Hsp, Hli. simpl.
  py_cases; intros; simplify_eq; eexists _, _;
    (split_and!; [done|done| |]);
    rewrite ?lookup_insert_ne by done; apply lookup_insert_eq.
Qed.

(** X17. When a run with both array outputs ends normally, the spatial
    file and the list file are different files, and at the end of the run
    [<base>_spatial.npy] holds the accumulator and [<base>_list.npy] its
    flattening into rows of [len(centroids)] values: the later saves (the
    list file, the metadata file) overwrite neither. *)
Theorem array_files_persist (args : Args) (world : World) (f : FS)
    (imzml_path output_dir : Path) (img : Reader) (cs : list float)
    (s1 : State) :
  resolve args world (initial f)
    = (Return (imzml_path, output_dir, img, cs), s1) ->
  save_npy_spatial args = true -> save_npy_list args = true ->
  (run args world f).1 = Return tt ->
  exists a m2,
    data_matrix_3d (run args world f).2 = Some a /\
    reshape a (length cs) = Some m2 /\
    files (fs (run args world f).2)
      !! npy_file args imzml_path output_dir "_spatial.npy"
      = Some (NpyFile3 (Some a)) /\
    files (fs (run args world f).2)
      !! npy_file args imzml_path output_dir "_list.npy"
      = Some (NpyFile2 m2) /\
    npy_file args imzml_path output_dir "_spatial.npy"
      <> npy_file args imzml_path output_dir "_list.npy".
Proof.
  intros Hres Hsp Hli.
  unfold run, main, bind. rewrite Hres, convert_finish. unfold bind.
  pose proof (extract_returns args world imzml_path output_dir img cs s1)
    as Hret.
  destruct (extract args world imzml_path output_dir img cs s1) as [r s2].
  simpl in *. subst r. intros Hend.
  destruct (finish_arrays args imzml_path output_dir cs s2 Hsp Hli Hend)
    as (a & m2 & Ha & Hm & F1 & F2).
  assert (wants_npy args = true) as Hw by (unfold wants_npy; by rewrite Hsp).
  destruct (finish_metadata args imzml_path output_dir cs s2 Hw Hend)
    as (_ & Hd & _).
  exists a, m2. rewrite Hd. split_and!; try done.
  by apply npy_file_inj.
Qed.

Lemma array_files_persist_witness :
  let args := Sample.with_flags false true true Sample.args0 in
  let r := run args (Sample.world Sample.all_ok) Sample.disk in
  exists a m2,
    data_matrix_3d r.2 = Some a /\
    reshape a 2 = Some m2 /\
    files (fs r.2) !! npy_file args ["data"; "sample.imzML"] ["data"]
                        "_spatial.npy" = Some (NpyFile3 (Some a)) /\
    files (fs r.2) !! npy_file args ["data"; "sample.imzML"] ["data"]
                        "_list.npy" = Some (NpyFile2 m2) /\
    npy_file args ["data"; "sample.imzML"] ["data"] "_spatial.npy"
      <> npy_file args ["data"; "sample.imzML"] ["data"] "_list.npy".
Proof.
  apply (array_files_persist
           (Sample.with_flags false true true Sample.args0)
           (Sample.world Sample.all_ok) Sample.disk
           ["data"; "sample.imzML"] ["data"]
           (Sample.reader Sample.all_ok)
           [Sample.mz 100; Sample.mz 200]
           (resolve (Sample.with_flags false true true Sample.args0)
              (Sample.world Sample.all_ok) (initial Sample.disk)).2);
    [reflexivity | reflexivity | reflexivity | vm_compute; reflexivity].
Defined.
